(** * LLVMToCpu: the CPU backend translator of the SSCP compiler

    A shallow embedding of
    [src/compiler/llvm-to-backend/cpu/LLVMToCpu.cpp]: the translator's
    configuration state, the flavoring step [toBackendFlavor], the
    lowering step [translateToBackendFormat], [applyBuildOption],
    [isKernelAfterFlavoring] and [getAddressSpaceMap], together with the
    part of the LLVM object model and of the host environment these
    functions touch. *)

From Stdlib Require Import ZArith DecimalString.
From stdpp Require Import base decidable countable gmap strings list fin_maps.

Local Open Scope string_scope.
Local Open Scope list_scope.

(** ** The part of the LLVM object model the translator touches *)

Module LLVM.

(** [llvm::GlobalValue::LinkageTypes]. *)
Inductive LinkageTypes :=
| ExternalLinkage
| AvailableExternallyLinkage
| LinkOnceAnyLinkage
| LinkOnceODRLinkage
| WeakAnyLinkage
| WeakODRLinkage
| AppendingLinkage
| InternalLinkage
| PrivateLinkage
| ExternalWeakLinkage
| CommonLinkage.

#[global] Instance LinkageTypes_eq_dec : EqDecision LinkageTypes.
Proof. solve_decision. Defined.

(** A function of a module.  The symbol table of a module maps each name
    to at most one function, so a function is referred to by its name;
    [Body] stands for everything of the function the translator never
    looks at. *)
Record Function := mkFunction {
  Linkage : LinkageTypes;
  Body : string
}.

#[global] Instance Function_eq_dec : EqDecision Function.
Proof. solve_decision. Defined.

(** [F->setLinkage(L)]. *)
Definition setLinkage (L : LinkageTypes) (F : Function) : Function :=
  {| Linkage := L; Body := Body F |}.

(** Metadata operands: [ValueAsMetadata::get(F)] for a function [F]
    (named by its symbol), [MDString::get(Ctx, s)], and
    [ValueAsMetadata::getConstant(ConstantInt::get(iN, v))]. *)
Inductive Metadata :=
| ValueAsMetadata (F : string)
| MDString (s : string)
| ConstantAsMetadata (bits : N) (v : Z).

#[global] Instance Metadata_eq_dec : EqDecision Metadata.
Proof. solve_decision. Defined.

(** [MDTuple::get(Ctx, Operands)]. *)
Definition MDTuple := list Metadata.

(** [llvm::Module]: the declared target triple, the symbol table of
    functions and the named metadata nodes, each with its operand list. *)
Record Module := mkModule {
  TargetTriple : string;
  FunctionList : gmap string Function;
  NamedMDList : gmap string (list MDTuple)
}.

(** [M.setTargetTriple(T)]. *)
Definition setTargetTriple (T : string) (M : Module) : Module :=
  {| TargetTriple := T;
     FunctionList := FunctionList M;
     NamedMDList := NamedMDList M |}.

(** [M.getFunction(Name)]: null when the symbol is absent. *)
Definition getFunction (Name : string) (M : Module) : option Function :=
  FunctionList M !! Name.

(** The operands of a named metadata node; a node that does not exist
    has none. *)
Definition getNamedMetadata (Name : string) (M : Module) : list MDTuple :=
  default [] (NamedMDList M !! Name).

(** [M.getOrInsertNamedMetadata(Name)->addOperand(T)]: the node is
    created empty when absent, and the operand goes to its end. *)
Definition addNamedMetadataOperand (Name : string) (T : MDTuple) (M : Module)
  : Module :=
  {| TargetTriple := TargetTriple M;
     FunctionList := FunctionList M;
     NamedMDList := <[Name := getNamedMetadata Name M ++ [T]]> (NamedMDList M) |}.

(** [F->setLinkage(L)] for the function registered under [Name]. *)
Definition setFunctionLinkage (Name : string) (L : LinkageTypes) (M : Module)
  : Module :=
  {| TargetTriple := TargetTriple M;
     FunctionList := alter (setLinkage L) Name (FunctionList M);
     NamedMDList := NamedMDList M |}.

(** [llvm::Expected<T>] (and [llvm::ErrorOr<T>]): a value or an error;
    [takeError()] and [getError()] are read by matching on it. *)
Inductive Expected (T : Type) :=
| Value (t : T)
| Failure (msg : string).
Arguments Value {T} t.
Arguments Failure {T} msg.

(** [llvm::sys::fs::TempFile]: only the name is modelled; the descriptor
    refers to the file of that name. *)
Record TempFile := mkTempFile { TmpName : string }.

End LLVM.

(** ** Address spaces ([AddressSpaceMap.hpp]) *)

(** The classifications the translator assigns in [getAddressSpaceMap]. *)
Inductive AddressSpace :=
| Generic
| Global
| Local
| Private
| Constant
| AllocaDefault
| GlobalVariableDefault
| ConstantGlobalVariableDefault.

#[global] Instance AddressSpace_eq_dec : EqDecision AddressSpace.
Proof. solve_decision. Defined.

Definition AddressSpace_index (AS : AddressSpace) : nat :=
  match AS with
  | Generic => 0 | Global => 1 | Local => 2 | Private => 3 | Constant => 4
  | AllocaDefault => 5 | GlobalVariableDefault => 6
  | ConstantGlobalVariableDefault => 7
  end.

Definition AddressSpace_of_index (i : nat) : option AddressSpace :=
  match i with
  | 0 => Some Generic | 1 => Some Global | 2 => Some Local | 3 => Some Private
  | 4 => Some Constant | 5 => Some AllocaDefault
  | 6 => Some GlobalVariableDefault | 7 => Some ConstantGlobalVariableDefault
  | _ => None
  end.

#[global] Instance AddressSpace_countable : Countable AddressSpace.
Proof.
  apply (inj_countable AddressSpace_index AddressSpace_of_index).
  by intros [].
Defined.

(** Modelled from the spec: the class [AddressSpaceMap] is declared in the
    header [AddressSpaceMap.hpp], outside [LLVMToCpu.cpp].  The spec
    describes it as a mapping from address-space classifications to
    non-negative target codes; [ASMap[AS] = v] stores [v] under [AS]. *)
Abbreviation AddressSpaceMap := (gmap AddressSpace N).

(** The seven classifications the specification lists: generic, global,
    local, private, constant and the two allocation defaults. *)
Definition spec_classifications : list AddressSpace :=
  [Generic; Global; Local; Private; Constant; AllocaDefault;
   GlobalVariableDefault].

(** ** Translator state *)

(** The fields of [LLVMToCpuTranslator].  [Errors] is the error log of the
    base class [LLVMToBackendTranslator]. *)
Record LLVMToCpuTranslator := mkTranslator {
  KernelNames : list string;
  TargetTriple : string;
  MCpu : string;
  Errors : list string
}.

(** Modelled from the spec: [registerError] belongs to the base class
    [LLVMToBackendTranslator], outside [LLVMToCpu.cpp].  The spec describes
    the error log as an append-only sequence of strings written by failing
    operations. *)
Definition registerError (E : string) (T : LLVMToCpuTranslator)
  : LLVMToCpuTranslator :=
  {| KernelNames := KernelNames T;
     TargetTriple := TargetTriple T;
     MCpu := MCpu T;
     Errors := Errors T ++ [E] |}.

(** [LLVMToCpuTranslator::applyBuildOption]: the result and the translator
    after the call. *)
Definition applyBuildOption (Option Value : string) (T : LLVMToCpuTranslator)
  : bool * LLVMToCpuTranslator :=
  if String.eqb Option "triple" then
    (true, {| KernelNames := KernelNames T;
              TargetTriple := Value;
              MCpu := MCpu T;
              Errors := Errors T |})
  else if String.eqb Option "cpu" then
    (true, {| KernelNames := KernelNames T;
              TargetTriple := TargetTriple T;
              MCpu := Value;
              Errors := Errors T |})
  else (false, T).

(** [LLVMToCpuTranslator::isKernelAfterFlavoring], on the function's name. *)
Fixpoint isKernelAfterFlavoring_loop (Names : list string) (FName : string)
  : bool :=
  match Names with
  | [] => false
  | Name :: rest =>
      if String.eqb FName Name then true
      else isKernelAfterFlavoring_loop rest FName
  end.

Definition isKernelAfterFlavoring (T : LLVMToCpuTranslator) (FName : string)
  : bool :=
  isKernelAfterFlavoring_loop (KernelNames T) FName.

(** ** The environment of the translator

    What the translator obtains from the host, from the build and from its
    collaborators.  Nothing is assumed about these values. *)

(** The outcome of [LLVMToBackendTranslator::linkBitcodeFile]: whether the
    link succeeded, the module as the linker left it, and the entries the
    base class wrote to the error log meanwhile. *)
Record LinkResult := mkLinkResult {
  link_ok : bool;
  link_module : LLVM.Module;
  link_errors : list string
}.

Record Environment := mkEnvironment {
  (** [llvm::sys::getProcessTriple()] *)
  getProcessTriple : string;
  (** [llvm::sys::getHostCPUName()] *)
  getHostCPUName : string;
  (** the macro [HIPSYCL_CLANG_PATH] *)
  HIPSYCL_CLANG_PATH : string;
  (** [common::filesystem::get_install_directory()] *)
  get_install_directory : string;
  (** [common::filesystem::join_path] *)
  join_path : string -> list string -> string;
  (** a default-constructed [AddressSpaceMap] *)
  ASMap_default : AddressSpaceMap;
  (** [LLVMToBackendTranslator::linkBitcodeFile(M, File)] *)
  linkBitcodeFile : LLVM.Module -> string -> LinkResult;
  (** the module pass manager run of [toBackendFlavor]: the address-space
      inference pass for the given map, then the CBS pipeline at O3 *)
  runPasses : AddressSpaceMap -> LLVM.Module -> LLVM.Module;
  (** [Module::print]: the textual form of a module *)
  printModule : LLVM.Module -> string;
  (** [llvm::WriteBitcodeToFile]: the bitcode of a module *)
  bitcodeOf : LLVM.Module -> string;
  (** the path [TempFile::create] picks for a model in a file system, or
      the error it reports *)
  createUniquePath : string -> gmap string string -> LLVM.Expected string;
  (** what becomes of reading [TmpName] through an [Expected] in the
      error state, given the error (the source does so on its two error
      paths): [None] when the read trips the assertion of [Expected] and
      the process aborts, [Some Name] when it goes through and yields
      whatever string [Name] the storage holds *)
  TmpName_of_failed : string -> option string;
  (** the external process started by [llvm::sys::ExecuteAndWait]: its
      exit code and what it leaves of the file system *)
  runProgram : string -> list string -> gmap string string
               -> Z * gmap string string
}.

(** The world outside the translator: the files by path, the processes run
    so far, each with its program, argument vector and exit code, and the
    debug stream. *)
Record World := mkWorld {
  files : gmap string string;
  spawned : list (string * list string * Z);
  debug_stream : list string
}.

Definition with_files (fs : gmap string string) (W : World) : World :=
  {| files := fs; spawned := spawned W; debug_stream := debug_stream W |}.

(** Writing a whole file through a [raw_fd_ostream]. *)
Definition write_file (Path Contents : string) (W : World) : World :=
  with_files (<[Path := Contents]> (files W)) W.

(** [TempFile::discard()]: the file of that name is removed. *)
Definition discard (F : LLVM.TempFile) (W : World) : World :=
  with_files (delete (LLVM.TmpName F) (files W)) W.

(** [llvm::MemoryBuffer::getFile(Path)]; the error is the one of a missing
    file. *)
Definition MemoryBuffer_getFile (Path : string) (W : World)
  : LLVM.Expected string :=
  match files W !! Path with
  | Some Buffer => LLVM.Value Buffer
  | None => LLVM.Failure "No such file or directory"
  end.

(** [HIPSYCL_DEBUG_INFO << ...]: what is streamed, as one entry. *)
Definition debug_info (Msg : string) (W : World) : World :=
  {| files := files W; spawned := spawned W;
     debug_stream := debug_stream W ++ [Msg] |}.

(** [std::to_string(int)]. *)
Definition to_string (R : Z) : string :=
  NilZero.string_of_int (Z.to_int R).

(** The line feed of ["\n"]. *)
Definition LF : string := String (Ascii.ascii_of_nat 10) EmptyString.

(** ** The translator *)

Section Translator.

Variable Env : Environment.

(** The constructor: the kernel names as given, the host's triple and CPU
    name, and an empty error log. *)
Definition createLLVMToCpuTranslator (KN : list string) : LLVMToCpuTranslator :=
  {| KernelNames := KN;
     TargetTriple := getProcessTriple Env;
     MCpu := getHostCPUName Env;
     Errors := [] |}.

(** [LLVMToCpuTranslator::getAddressSpaceMap]. *)
Definition getAddressSpaceMap (T : LLVMToCpuTranslator) : AddressSpaceMap :=
  let ASMap := ASMap_default Env in
  let ASMap := <[Generic := 0%N]> ASMap in
  let ASMap := <[Global := 0%N]> ASMap in
  let ASMap := <[Local := 0%N]> ASMap in
  let ASMap := <[Private := 0%N]> ASMap in
  let ASMap := <[Constant := 0%N]> ASMap in
  let ASMap := <[AllocaDefault := 0%N]> ASMap in
  let ASMap := <[GlobalVariableDefault := 0%N]> ASMap in
  let ASMap := <[ConstantGlobalVariableDefault := 0%N]> ASMap in
  ASMap.

(** *** Flavoring *)

(** The operands pushed for a kernel [F]: the function, the string
    ["kernel"] and the 32-bit constant 1. *)
Definition kernelOperands (F : string) : LLVM.MDTuple :=
  let Operands := [] in
  let Operands := Operands ++ [LLVM.ValueAsMetadata F] in
  let Operands := Operands ++ [LLVM.MDString "kernel"] in
  let Operands := Operands ++ [LLVM.ConstantAsMetadata 32 1] in
  Operands.

(** The body of the loop over [KernelNames] in [toBackendFlavor]. *)
Definition annotateKernel (KernelName : string) (M : LLVM.Module)
  : LLVM.Module :=
  match LLVM.getFunction KernelName M with
  | Some F =>
      let M := LLVM.addNamedMetadataOperand "hipsycl.sscp.annotations"
                 (kernelOperands KernelName) M in
      LLVM.setFunctionLinkage KernelName LLVM.ExternalLinkage M
  | None => M
  end.

(** The loop itself, over the names in the order of the vector. *)
Fixpoint annotateKernels (Names : list string) (M : LLVM.Module)
  : LLVM.Module :=
  match Names with
  | [] => M
  | KernelName :: rest => annotateKernels rest (annotateKernel KernelName M)
  end.

(** The module when the loop of [toBackendFlavor] is left, which is the
    module handed to [linkBitcodeFile]. *)
Definition flavorBeforeLink (T : LLVMToCpuTranslator) (M : LLVM.Module)
  : LLVM.Module :=
  let Triple := getProcessTriple Env in
  let M := LLVM.setTargetTriple Triple M in
  annotateKernels (KernelNames T) M.

Definition BuiltinBitcodeFile : string :=
  join_path Env (get_install_directory Env)
    ["lib"; "hipSYCL"; "bitcode"; "libkernel-sscp-cpu-full.bc"].

(** [LLVMToCpuTranslator::toBackendFlavor]: the result, the module and the
    translator after the call. *)
Definition toBackendFlavor (T : LLVMToCpuTranslator) (M : LLVM.Module)
  : bool * LLVM.Module * LLVMToCpuTranslator :=
  let ASMap := getAddressSpaceMap T in
  let M := flavorBeforeLink T M in
  let Linked := linkBitcodeFile Env M BuiltinBitcodeFile in
  let T := {| KernelNames := KernelNames T;
              TargetTriple := TargetTriple T;
              MCpu := MCpu T;
              Errors := Errors T ++ link_errors Linked |} in
  if negb (link_ok Linked) then (false, link_module Linked, T)
  else (true, runPasses Env ASMap (link_module Linked), T).

(** *** Lowering *)

(** [TempFile::create(Model)]: on success a file of the chosen name exists. *)
Definition TempFile_create (Model : string) (W : World)
  : LLVM.Expected LLVM.TempFile * World :=
  match createUniquePath Env Model (files W) with
  | LLVM.Value Path => (LLVM.Value (LLVM.mkTempFile Path), write_file Path "" W)
  | LLVM.Failure E => (LLVM.Failure E, W)
  end.

(** [llvm::sys::ExecuteAndWait(Program, Args)]. *)
Definition ExecuteAndWait (Program : string) (Args : list string) (W : World)
  : Z * World :=
  let '(R, fs) := runProgram Env Program Args (files W) in
  (R, {| files := fs;
         spawned := spawned W ++ [(Program, Args, R)];
         debug_stream := debug_stream W |}).

(** The argument vector of the compiler invocation. *)
Definition Invocation (T : LLVMToCpuTranslator)
  (ClangPath OutputFilename InputName : string) : list string :=
  let Invocation :=
    [ClangPath; "-cc1"; "-triple"; TargetTriple T; "-O3"; "-S"; "-x";
     "ir"; "-o"; OutputFilename; InputName] in
  if negb (String.eqb (MCpu T) "generic") then
    let Invocation := Invocation ++ ["-target-cpu"] in
    let Invocation := Invocation ++ [MCpu T] in
    Invocation
  else Invocation.

(** The string of all arguments, each followed by a space. *)
Definition ArgString (Invocation : list string) : string :=
  foldl (fun ArgString S => ArgString +:+ S +:+ " ") "" Invocation.

(** The state a lowering call works on: the translator, the caller's
    buffer [out] and the world. *)
Record Lowering := mkLowering {
  this : LLVMToCpuTranslator;
  out : string;
  world : World
}.

(** The part of [translateToBackendFormat] inside the scope of the two
    [AtScopeExit] objects, for the temporary files [In] and [Out]. *)
Definition translateScoped (FlavoredModule : LLVM.Module)
  (InputFile OutputFile : LLVM.TempFile) (S : Lowering) : bool * Lowering :=
  let OutputFilename := LLVM.TmpName OutputFile in
  let W := write_file (LLVM.TmpName InputFile) (bitcodeOf Env FlavoredModule)
             (world S) in
  let ClangPath := HIPSYCL_CLANG_PATH Env in
  let Inv := Invocation (this S) ClangPath OutputFilename
               (LLVM.TmpName InputFile) in
  let W := debug_info ("LLVMToCpu: Invoking " +:+ ArgString Inv +:+ LF) W in
  let '(R, W) := ExecuteAndWait ClangPath Inv W in
  if negb (R =? 0)%Z then
    (false,
     {| this := registerError
                  ("LLVMToCpu: clang invocation failed with exit code "
                   +:+ to_string R) (this S);
        out := out S; world := W |})
  else
    match MemoryBuffer_getFile (LLVM.TmpName OutputFile) W with
    | LLVM.Failure Err =>
        (false,
         {| this := registerError
                      ("LLVMToCpu: Could not read result file" +:+ Err)
                      (this S);
            out := out S; world := W |})
    | LLVM.Value Buffer =>
        (true, {| this := this S; out := Buffer; world := W |})
    end.

(** The error path taken when the temporary file could not be created
    with error [E]: the message is built from [TmpName] read through the
    failed [Expected].  When that read aborts the process, the call does
    not return (no result) and nothing was logged; otherwise the message
    is logged and the call returns failure. *)
Definition failedTempFile (E : string) (S : Lowering) (W : World)
  : option bool * Lowering :=
  match TmpName_of_failed Env E with
  | Some Name =>
      (Some false,
       {| this := registerError
                    ("LLVMToCpu: Could not create temp file: " +:+ Name)
                    (this S);
          out := out S; world := W |})
  | None => (None, {| this := this S; out := out S; world := W |})
  end.

(** [LLVMToCpuTranslator::translateToBackendFormat]: the result, when the
    call returns, and the state after the call, or at the point where the
    process aborted.  The two [AtScopeExit] objects run when the function
    is left after their construction, the later one first. *)
Definition translateToBackendFormat (FlavoredModule : LLVM.Module)
  (S : Lowering) : option bool * Lowering :=
  let W := write_file "hipsycl-sscp-cpu.ll" (printModule Env FlavoredModule)
             (world S) in
  let '(InputFile, W) := TempFile_create "hipsycl-sscp-cpu-%%%%%%.bc" W in
  let '(OutputFile, W) := TempFile_create "hipsycl-sscp-cpu-%%%%%%.s" W in
  match InputFile with
  | LLVM.Failure E => failedTempFile E S W
  | LLVM.Value InputFile =>
      match OutputFile with
      | LLVM.Failure E => failedTempFile E S W
      | LLVM.Value OutputFile =>
          let '(Result, S') :=
            translateScoped FlavoredModule InputFile OutputFile
              {| this := this S; out := out S; world := W |} in
          let W := discard OutputFile (world S') in
          let W := discard InputFile W in
          (Some Result, {| this := this S'; out := out S'; world := W |})
      end
  end.

End Translator.

(** ** Observations used in the statements *)

(** The kernel annotations of a module: the operands of the named
    metadata node the flavoring appends to. *)
Definition annotations (M : LLVM.Module) : list LLVM.MDTuple :=
  LLVM.getNamedMetadata "hipsycl.sscp.annotations" M.

(** The annotation records that reference the function [Name]. *)
Definition recordsOf (Name : string) (M : LLVM.Module) : list LLVM.MDTuple :=
  filter (λ Tup, LLVM.ValueAsMetadata Name ∈ Tup) (annotations M).

(** How often [Name] occurs in a sequence of names. *)
Definition occurrences (Name : string) (Names : list string) : nat :=
  length (filter (λ N, N = Name) Names).

(** [s] occurs in [t] as a contiguous substring. *)
Definition is_substring (s t : string) : Prop :=
  ∃ pre post, t = pre +:+ s +:+ post.

(** ** Concrete hosts, translators and modules

    A host on an AArch64 machine whose collaborators are the simplest
    ones: the passes leave the module alone, the dump and the bitcode are
    fixed texts.  [library_present] says whether the builtin bitcode
    library can be linked (a failed link leaves the module as it was and
    logs nothing), [output_temp_ok] whether the second temporary file can
    be created, and [exit_code] is what the external compiler returns,
    leaving the file system as it found it.  The [Expected] of this host
    lets the read of [TmpName] in the error state through, yielding the
    empty string. *)
Definition example_host (library_present output_temp_ok : bool)
  (exit_code : Z) : Environment :=
  {| getProcessTriple := "aarch64-unknown-linux-gnu";
     getHostCPUName := "cortex-a72";
     HIPSYCL_CLANG_PATH := "/usr/bin/clang";
     get_install_directory := "/opt/acpp";
     join_path := λ Base Parts, foldl (λ P C, P +:+ "/" +:+ C) Base Parts;
     ASMap_default := ∅;
     linkBitcodeFile := λ M _,
       {| link_ok := library_present; link_module := M; link_errors := [] |};
     runPasses := λ _ M, M;
     printModule := λ _, "; ModuleID";
     bitcodeOf := λ _, "BC";
     createUniquePath := λ Model _,
       if String.eqb Model "hipsycl-sscp-cpu-%%%%%%.bc"
       then LLVM.Value "/tmp/hipsycl-sscp-cpu-a1b2c3.bc"
       else if output_temp_ok
            then LLVM.Value "/tmp/hipsycl-sscp-cpu-d4e5f6.s"
            else LLVM.Failure "Too many open files";
     TmpName_of_failed := λ _, Some "";
     runProgram := λ _ _ fs, (exit_code, fs) |}.

(** The same host with an [Expected] that checks its state: reading
    [TmpName] through a failed one aborts. *)
Definition example_host_checking (library_present output_temp_ok : bool)
  (exit_code : Z) : Environment :=
  let Host := example_host library_present output_temp_ok exit_code in
  {| getProcessTriple := getProcessTriple Host;
     getHostCPUName := getHostCPUName Host;
     HIPSYCL_CLANG_PATH := HIPSYCL_CLANG_PATH Host;
     get_install_directory := get_install_directory Host;
     join_path := join_path Host;
     ASMap_default := ASMap_default Host;
     linkBitcodeFile := linkBitcodeFile Host;
     runPasses := runPasses Host;
     printModule := printModule Host;
     bitcodeOf := bitcodeOf Host;
     createUniquePath := createUniquePath Host;
     TmpName_of_failed := λ _, None;
     runProgram := runProgram Host |}.

(** A function of internal linkage. *)
Definition example_k : LLVM.Function :=
  LLVM.mkFunction LLVM.InternalLinkage "define void @k()".

(** A module with the function [k] of internal linkage and a function
    [helper], and no annotations. *)
Definition example_module : LLVM.Module :=
  {| LLVM.TargetTriple := "";
     LLVM.FunctionList :=
       {[ "k" := example_k;
          "helper" := LLVM.mkFunction LLVM.InternalLinkage
                        "define void @helper()" ]};
     LLVM.NamedMDList := ∅ |}.

(** A translator as constructed for the kernel names [KN] on a host. *)
Definition example_translator (Env : Environment) (KN : list string)
  : LLVMToCpuTranslator :=
  createLLVMToCpuTranslator Env KN.

(** The state a lowering call starts from: an empty file system, no
    process run yet, and the caller's buffer holding ["old"]. *)
Definition example_lowering (T : LLVMToCpuTranslator) : Lowering :=
  {| this := T; out := "old";
     world := {| files := ∅; spawned := []; debug_stream := [] |} |}.

(** ** Statements as the specification words them, where the code differs *)

(** "If the builtin library cannot be linked, [toBackendFlavor] returns
    failure and the module is left without partial modification: every
    function retains its original linkage and no kernel-annotation record
    has been added." *)
Definition failed_flavoring_leaves_module (Env : Environment)
  (T : LLVMToCpuTranslator) (M : LLVM.Module) : Prop :=
  link_ok (linkBitcodeFile Env (flavorBeforeLink Env T M)
             (BuiltinBitcodeFile Env)) = false →
  let '(Result, M', _) := toBackendFlavor Env T M in
  Result = false ∧
  (∀ Name, LLVM.Linkage <$> LLVM.getFunction Name M'
           = LLVM.Linkage <$> LLVM.getFunction Name M) ∧
  annotations M' = annotations M.


(** "During flavoring the module's declared target triple is set to the
    translator's configured triple." *)
Definition flavoring_sets_configured_triple (Env : Environment)
  (T : LLVMToCpuTranslator) (M : LLVM.Module) : Prop :=
  LLVM.TargetTriple (flavorBeforeLink Env T M) = TargetTriple T.

(** "Both temporary files created during a lowering call are absent from
    the file system when the call returns": here for the temporary files
    the call created, by name. *)
Definition temp_files_absent_after (Env : Environment)
  (FlavoredModule : LLVM.Module) (S : Lowering) : Prop :=
  let W0 := write_file "hipsycl-sscp-cpu.ll" (printModule Env FlavoredModule)
              (world S) in
  let '(InputFile, W1) := TempFile_create Env "hipsycl-sscp-cpu-%%%%%%.bc" W0 in
  let '(OutputFile, _) := TempFile_create Env "hipsycl-sscp-cpu-%%%%%%.s" W1 in
  let fs := files (world (snd (translateToBackendFormat Env FlavoredModule S))) in
  (∀ F, InputFile = LLVM.Value F → fs !! LLVM.TmpName F = None) ∧
  (∀ F, OutputFile = LLVM.Value F → fs !! LLVM.TmpName F = None).

(** "On a failure to create a temporary file, the call returns failure,
    [out] is left unmodified and exactly one entry is appended to the
    error log." *)
Definition temp_failure_is_reported (Env : Environment)
  (FlavoredModule : LLVM.Module) (S : Lowering) : Prop :=
  let W0 := write_file "hipsycl-sscp-cpu.ll" (printModule Env FlavoredModule)
              (world S) in
  let '(InputFile, W1) := TempFile_create Env "hipsycl-sscp-cpu-%%%%%%.bc" W0 in
  let '(OutputFile, _) := TempFile_create Env "hipsycl-sscp-cpu-%%%%%%.s" W1 in
  (∃ E, InputFile = LLVM.Failure E) ∨ (∃ E, OutputFile = LLVM.Failure E) →
  let R := translateToBackendFormat Env FlavoredModule S in
  fst R = Some false ∧
  out (snd R) = out S ∧
  ∃ E, Errors (this (snd R)) = Errors (this S) ++ [E].

(** ** Sequences of build options *)

(** The caller applies build options one after the other; the results of
    the single calls are not kept here. *)
Definition applyBuildOptions (Options : list (string * string))
  (T : LLVMToCpuTranslator) : LLVMToCpuTranslator :=
  foldl (λ T OV, snd (applyBuildOption OV.1 OV.2 T)) T Options.

(** The value given with the last occurrence of [Key] in a sequence of
    options, if [Key] occurs at all. *)
Definition last_value (Key : string) (Options : list (string * string))
  : option string :=
  last (snd <$> filter (λ OV, OV.1 = Key) Options).

(** * Properties *)

(** ** Build options *)

Lemma eqb_string_neq (a b : string) : a ≠ b → String.eqb a b = false.
Proof. intros Hne. by apply String.eqb_neq. Qed.

(** C7: [applyBuildOption] with key ["triple"] stores the value as the
    target triple and succeeds, leaving the CPU model alone; with key
    ["cpu"] it stores the value as the CPU model and succeeds, leaving the
    triple alone; with any other key it fails and returns the translator
    as it was.  The error log and the kernel names are untouched in all
    three cases. *)
Theorem applyBuildOption_frame (Value : string) (T : LLVMToCpuTranslator) :
  (applyBuildOption "triple" Value T
   = (true, {| KernelNames := KernelNames T; TargetTriple := Value;
               MCpu := MCpu T; Errors := Errors T |})) ∧
  (applyBuildOption "cpu" Value T
   = (true, {| KernelNames := KernelNames T; TargetTriple := TargetTriple T;
               MCpu := Value; Errors := Errors T |})) ∧
  (∀ Option, Option ≠ "triple" → Option ≠ "cpu" →
     applyBuildOption Option Value T = (false, T)).
Proof.
  split; [reflexivity|]. split; [reflexivity|].
  intros Option Htriple Hcpu. unfold applyBuildOption.
  by rewrite (eqb_string_neq _ _ Htriple), (eqb_string_neq _ _ Hcpu).
Qed.

Lemma applyBuildOption_frame_witness :
  applyBuildOption "bogus" "x" (example_translator (example_host true true 0) ["k"])
  = (false, example_translator (example_host true true 0) ["k"]).
Proof.
  apply (proj2 (proj2 (applyBuildOption_frame "x"
           (example_translator (example_host true true 0) ["k"]))) "bogus");
    discriminate.
Defined.

(** [isKernelAfterFlavoring] is membership of the name in the kernel
    names. *)
Lemma isKernelAfterFlavoring_spec (T : LLVMToCpuTranslator) (FName : string) :
  isKernelAfterFlavoring T FName = true ↔ FName ∈ KernelNames T.
Proof.
  unfold isKernelAfterFlavoring.
  induction (KernelNames T) as [|Name Names IH]; simpl.
  - rewrite elem_of_nil. split; [discriminate|done].
  - rewrite elem_of_cons. destruct (String.eqb_spec FName Name) as [->|Hne].
    + split; [by left|done].
    + rewrite IH. split; [by right|]. intros [?|?]; done.
Qed.

(** ** The address-space map *)

Section AddressSpaces.

Variable Env : Environment.

(** Whatever the default-constructed map holds, the eight assignments
    decide every entry. *)
Lemma getAddressSpaceMap_lookup (T : LLVMToCpuTranslator) (AS : AddressSpace) :
  getAddressSpaceMap Env T !! AS = Some 0%N.
Proof. unfold getAddressSpaceMap. destruct AS; by simplify_map_eq. Qed.

Lemma getAddressSpaceMap_closed_form (T : LLVMToCpuTranslator) :
  getAddressSpaceMap Env T
  = list_to_map (((λ AS, (AS, 0%N)) <$> spec_classifications)
                 ++ [(ConstantGlobalVariableDefault, 0%N)]).
Proof.
  apply map_eq. intros AS. rewrite getAddressSpaceMap_lookup.
  by destruct AS.
Qed.

(** C8: the map returned by [getAddressSpaceMap] has an entry for each of
    the seven classifications the specification lists, every value in it
    is 0, and it is the same map for every state of the translator. *)
Theorem getAddressSpaceMap_all_zero (T : LLVMToCpuTranslator) :
  Forall (λ AS, is_Some (getAddressSpaceMap Env T !! AS)) spec_classifications ∧
  map_Forall (λ _ Code, Code = 0%N) (getAddressSpaceMap Env T) ∧
  ∀ T', getAddressSpaceMap Env T' = getAddressSpaceMap Env T.
Proof.
  split; [|split].
  - apply Forall_forall. intros AS _. rewrite getAddressSpaceMap_lookup. eauto.
  - intros AS Code. rewrite getAddressSpaceMap_lookup. congruence.
  - reflexivity.
Qed.

(** C9: besides the seven listed classifications the returned map has an
    eighth entry, for [ConstantGlobalVariableDefault], also with code 0. *)
Theorem getAddressSpaceMap_eighth_entry (T : LLVMToCpuTranslator) :
  getAddressSpaceMap Env T !! ConstantGlobalVariableDefault = Some 0%N ∧
  (ConstantGlobalVariableDefault ∉ spec_classifications) ∧
  length spec_classifications = 7 ∧
  size (getAddressSpaceMap Env T) = 8.
Proof.
  split; [apply getAddressSpaceMap_lookup|]. split; [|split].
  - unfold spec_classifications. rewrite !not_elem_of_cons.
    repeat split; try discriminate. apply not_elem_of_nil.
  - reflexivity.
  - rewrite getAddressSpaceMap_closed_form. by vm_compute.
Qed.

End AddressSpaces.

(** ** Flavoring *)

Lemma setLinkage_idemp (L : LLVM.LinkageTypes) (F : option LLVM.Function) :
  LLVM.setLinkage L <$> (LLVM.setLinkage L <$> F) = LLVM.setLinkage L <$> F.
Proof. by destruct F. Qed.

(** A record built by [kernelOperands] references the function it was
    built for and no other. *)
Lemma kernelOperands_references (Name N : string) :
  LLVM.ValueAsMetadata Name ∈ kernelOperands N ↔ N = Name.
Proof.
  unfold kernelOperands. simpl. rewrite !elem_of_cons, elem_of_nil.
  split; [|intros ->; by left].
  intros [H|[H|[H|[]]]]; by simplify_eq.
Qed.

Lemma recordsOf_fmap_kernelOperands (Name : string) (Names : list string) :
  filter (λ Tup, LLVM.ValueAsMetadata Name ∈ Tup) (kernelOperands <$> Names)
  = replicate (occurrences Name Names) (kernelOperands Name).
Proof.
  unfold occurrences. induction Names as [|N Names IH]; [done|].
  rewrite fmap_cons, !filter_cons.
  destruct (decide (N = Name)) as [->|Hne].
  - rewrite decide_True by by apply kernelOperands_references.
    simpl. by rewrite IH.
  - rewrite decide_False by by rewrite kernelOperands_references.
    done.
Qed.

Section Flavoring.

Variable Env : Environment.

(** *** One iteration of the loop *)

Lemma annotateKernel_triple (N : string) (M : LLVM.Module) :
  LLVM.TargetTriple (annotateKernel N M) = LLVM.TargetTriple M.
Proof. unfold annotateKernel. by destruct (LLVM.getFunction N M). Qed.

Lemma annotateKernel_function (N Name : string) (M : LLVM.Module) :
  LLVM.getFunction Name (annotateKernel N M)
  = if decide (N = Name)
    then LLVM.setLinkage LLVM.ExternalLinkage <$> LLVM.getFunction Name M
    else LLVM.getFunction Name M.
Proof.
  unfold annotateKernel.
  destruct (LLVM.getFunction N M) as [F|] eqn:HF.
  - unfold LLVM.getFunction. simpl. rewrite lookup_alter.
    by destruct (decide (N = Name)) as [->|].
  - destruct (decide (N = Name)) as [->|]; [|done]. by rewrite HF.
Qed.

Lemma annotateKernel_resolves (N Name : string) (M : LLVM.Module) :
  is_Some (LLVM.getFunction Name (annotateKernel N M))
  ↔ is_Some (LLVM.getFunction Name M).
Proof.
  rewrite annotateKernel_function.
  destruct (decide (N = Name)); [|done]. by rewrite fmap_is_Some.
Qed.

Lemma annotateKernel_annotations (N : string) (M : LLVM.Module) :
  annotations (annotateKernel N M)
  = annotations M
    ++ (if decide (is_Some (LLVM.getFunction N M))
        then [kernelOperands N] else []).
Proof.
  unfold annotateKernel.
  destruct (LLVM.getFunction N M) as [F|] eqn:HF.
  - rewrite decide_True by eauto.
    unfold annotations, LLVM.getNamedMetadata at 1. simpl.
    by rewrite lookup_insert_eq.
  - rewrite decide_False by (by intros [? ?]).
    by rewrite app_nil_r.
Qed.

(** *** The whole loop *)

Lemma annotateKernels_triple (Names : list string) (M : LLVM.Module) :
  LLVM.TargetTriple (annotateKernels Names M) = LLVM.TargetTriple M.
Proof.
  revert M. induction Names as [|N Names IH]; intros M; [done|].
  simpl. by rewrite IH, annotateKernel_triple.
Qed.

Lemma annotateKernels_function (Names : list string) (Name : string)
  (M : LLVM.Module) :
  LLVM.getFunction Name (annotateKernels Names M)
  = if decide (Name ∈ Names)
    then LLVM.setLinkage LLVM.ExternalLinkage <$> LLVM.getFunction Name M
    else LLVM.getFunction Name M.
Proof.
  revert M. induction Names as [|N Names IH]; intros M.
  - cbn [annotateKernels]. case_decide as Hin; [|done].
    by apply elem_of_nil in Hin.
  - cbn [annotateKernels]. rewrite IH, annotateKernel_function.
    destruct (decide (Name ∈ Names)) as [Hin|Hnin],
             (decide (N = Name)) as [->|Hne]; rewrite ?setLinkage_idemp.
    1-3: rewrite decide_True; [done|rewrite elem_of_cons; auto].
    rewrite decide_False; [done|].
    rewrite elem_of_cons. intros [->|?]; done.
Qed.

(** The loop appends one record for each name of the sequence that
    resolves to a function, in the order of the sequence. *)
Lemma annotateKernels_annotations (Names : list string) (M : LLVM.Module) :
  annotations (annotateKernels Names M)
  = annotations M
    ++ (kernelOperands
          <$> filter (λ N, is_Some (LLVM.getFunction N M)) Names).
Proof.
  revert M. induction Names as [|N Names IH]; intros M.
  - simpl. by rewrite app_nil_r.
  - simpl. rewrite IH, annotateKernel_annotations, filter_cons.
    rewrite (list_filter_iff _ (λ N, is_Some (LLVM.getFunction N M)))
      by (intros ?; apply annotateKernel_resolves).
    destruct (decide (is_Some (LLVM.getFunction N M))).
    + by rewrite fmap_cons, <- app_assoc.
    + by rewrite app_nil_r.
Qed.

Lemma occurrences_resolving (Name : string) (Names : list string)
  (M : LLVM.Module) :
  is_Some (LLVM.getFunction Name M) →
  occurrences Name (filter (λ N, is_Some (LLVM.getFunction N M)) Names)
  = occurrences Name Names.
Proof.
  intros HF. unfold occurrences. f_equal.
  apply list_filter_filter_l. by intros N ->.
Qed.

Lemma occurrences_pos (Name : string) (Names : list string) :
  0 < occurrences Name Names ↔ Name ∈ Names.
Proof.
  unfold occurrences. induction Names as [|N Names IH].
  - simpl. rewrite elem_of_nil. lia.
  - rewrite filter_cons, elem_of_cons.
    destruct (decide (N = Name)) as [->|Hne]; simpl.
    + split; [by left|lia].
    + rewrite IH. split; [by right|]. intros [->|?]; done.
Qed.

Lemma flavorBeforeLink_triple (T : LLVMToCpuTranslator) (M : LLVM.Module) :
  LLVM.TargetTriple (flavorBeforeLink Env T M) = getProcessTriple Env.
Proof. unfold flavorBeforeLink. by rewrite annotateKernels_triple. Qed.

Lemma flavorBeforeLink_function (T : LLVMToCpuTranslator) (Name : string)
  (M : LLVM.Module) :
  LLVM.getFunction Name (flavorBeforeLink Env T M)
  = if decide (Name ∈ KernelNames T)
    then LLVM.setLinkage LLVM.ExternalLinkage <$> LLVM.getFunction Name M
    else LLVM.getFunction Name M.
Proof. unfold flavorBeforeLink. by rewrite annotateKernels_function. Qed.

Lemma flavorBeforeLink_annotations (T : LLVMToCpuTranslator) (M : LLVM.Module) :
  annotations (flavorBeforeLink Env T M)
  = annotations M
    ++ (kernelOperands
          <$> filter (λ N, is_Some (LLVM.getFunction N M)) (KernelNames T)).
Proof. unfold flavorBeforeLink. by rewrite annotateKernels_annotations. Qed.

Lemma flavorBeforeLink_recordsOf (T : LLVMToCpuTranslator) (Name : string)
  (M : LLVM.Module) :
  is_Some (LLVM.getFunction Name M) →
  recordsOf Name (flavorBeforeLink Env T M)
  = recordsOf Name M
    ++ replicate (occurrences Name (KernelNames T)) (kernelOperands Name).
Proof.
  intros HF. unfold recordsOf.
  rewrite flavorBeforeLink_annotations, filter_app.
  by rewrite recordsOf_fmap_kernelOperands, occurrences_resolving.
Qed.


(** *** What flavoring does to kernels *)

Lemma flavoring_marks_kernels_aux (T : LLVMToCpuTranslator) (M : LLVM.Module)
  (Name : string) (F : LLVM.Function) :
  Name ∈ KernelNames T → LLVM.getFunction Name M = Some F →
  LLVM.getFunction Name (flavorBeforeLink Env T M)
  = Some (LLVM.setLinkage LLVM.ExternalLinkage F) ∧
  kernelOperands Name ∈ annotations (flavorBeforeLink Env T M).
Proof.
  intros Hin HF. split.
  - rewrite flavorBeforeLink_function, decide_True by done. by rewrite HF.
  - rewrite flavorBeforeLink_annotations, elem_of_app. right.
    apply list_elem_of_fmap_2, list_elem_of_filter. split; [|done].
    by rewrite HF.
Qed.

(** C10: the loop of [toBackendFlavor] walks the kernel names as they were
    given, repetitions included: when the module is handed to the linker
    its annotation list is the old one followed by one record per entry of
    [KernelNames] that resolves to a function, in order; so a function
    whose name occurs [k] times gets [k] records.  Every iteration for a
    name that resolves appends one record and sets the linkage of the
    function to external, which is its linkage in the end when [k] is not
    zero. *)
Theorem flavoring_annotates_each_occurrence (T : LLVMToCpuTranslator)
  (M : LLVM.Module) (Name : string) (F : LLVM.Function) (k : nat) :
  LLVM.getFunction Name M = Some F →
  occurrences Name (KernelNames T) = k →
  annotations (flavorBeforeLink Env T M)
  = annotations M
    ++ (kernelOperands
          <$> filter (λ N, is_Some (LLVM.getFunction N M)) (KernelNames T)) ∧
  recordsOf Name (flavorBeforeLink Env T M)
  = recordsOf Name M ++ replicate k (kernelOperands Name) ∧
  (0 < k →
   LLVM.getFunction Name (flavorBeforeLink Env T M)
   = Some (LLVM.setLinkage LLVM.ExternalLinkage F)) ∧
  (∀ M0 F0, LLVM.getFunction Name M0 = Some F0 →
     annotations (annotateKernel Name M0)
     = annotations M0 ++ [kernelOperands Name] ∧
     LLVM.getFunction Name (annotateKernel Name M0)
     = Some (LLVM.setLinkage LLVM.ExternalLinkage F0)).
Proof.
  intros HF <-. split; [apply flavorBeforeLink_annotations|].
  split; [apply flavorBeforeLink_recordsOf; by rewrite HF|].
  split.
  - intros Hpos. apply occurrences_pos in Hpos.
    rewrite flavorBeforeLink_function, decide_True by done.
    by rewrite HF.
  - intros M0 F0 HF0. split.
    + rewrite annotateKernel_annotations, decide_True; [done|].
      by rewrite HF0.
    + rewrite annotateKernel_function, decide_True by done.
      by rewrite HF0.
Qed.


(** *** A failed link *)

(** C2, as the code has it: when the builtin library cannot be linked,
    [toBackendFlavor] returns failure without running any pass, and the
    module it leaves is the one the linker left.  The linker was handed a
    module in which the loop had already run: the functions named by
    [KernelNames] have external linkage and their records are in the
    annotation list; only functions not so named have their linkage as
    before.  The translator's configuration is unchanged. *)
Theorem toBackendFlavor_link_failure (T : LLVMToCpuTranslator)
  (M : LLVM.Module) :
  let Linked := linkBitcodeFile Env (flavorBeforeLink Env T M)
                  (BuiltinBitcodeFile Env) in
  link_ok Linked = false →
  toBackendFlavor Env T M
  = (false, link_module Linked,
     {| KernelNames := KernelNames T; TargetTriple := TargetTriple T;
        MCpu := MCpu T; Errors := Errors T ++ link_errors Linked |}) ∧
  (∀ Name F, Name ∈ KernelNames T → LLVM.getFunction Name M = Some F →
     LLVM.getFunction Name (flavorBeforeLink Env T M)
     = Some (LLVM.setLinkage LLVM.ExternalLinkage F) ∧
     kernelOperands Name ∈ annotations (flavorBeforeLink Env T M)) ∧
  (∀ Name, Name ∉ KernelNames T →
     LLVM.getFunction Name (flavorBeforeLink Env T M)
     = LLVM.getFunction Name M).
Proof.
  intros Linked Hfail. split; [|split].
  - unfold toBackendFlavor. fold Linked. by rewrite Hfail.
  - intros Name F Hin HF.
    destruct (flavoring_marks_kernels_aux T M Name F Hin HF) as [? ?]. done.
  - intros Name Hnot.
    by rewrite flavorBeforeLink_function, decide_False.
Qed.

End Flavoring.

(** **** Flavoring on the example host *)

Lemma flavoring_annotates_each_occurrence_witness :
  recordsOf "k"
    (flavorBeforeLink (example_host true true 0)
       (example_translator (example_host true true 0) ["k"; "k"])
       example_module)
  = recordsOf "k" example_module ++ replicate 2 (kernelOperands "k").
Proof.
  apply (flavoring_annotates_each_occurrence (example_host true true 0)
           (example_translator (example_host true true 0) ["k"; "k"])
           example_module "k" example_k 2); reflexivity.
Defined.



Lemma toBackendFlavor_link_failure_witness :
  toBackendFlavor (example_host false true 0)
    (example_translator (example_host false true 0) ["k"]) example_module
  = (false,
     flavorBeforeLink (example_host false true 0)
       (example_translator (example_host false true 0) ["k"]) example_module,
     example_translator (example_host false true 0) ["k"]).
Proof.
  apply (toBackendFlavor_link_failure (example_host false true 0)
           (example_translator (example_host false true 0) ["k"])
           example_module).
  reflexivity.
Defined.

Lemma example_failed_flavoring :
  toBackendFlavor (example_host false true 0)
    (example_translator (example_host false true 0) ["k"]) example_module
  = (false,
     flavorBeforeLink (example_host false true 0)
       (example_translator (example_host false true 0) ["k"]) example_module,
     example_translator (example_host false true 0) ["k"]).
Proof. reflexivity. Qed.

(** On a host without the builtin library, flavoring fails, and the
    function [k] has lost its internal linkage and gained a record. *)
Lemma failed_flavoring_modifies_module :
  ¬ failed_flavoring_leaves_module (example_host false true 0)
      (example_translator (example_host false true 0) ["k"]) example_module.
Proof.
  intros Hclaim. specialize (Hclaim eq_refl).
  rewrite example_failed_flavoring in Hclaim.
  destruct Hclaim as (_ & Hlinkage & _).
  specialize (Hlinkage "k"). vm_compute in Hlinkage. discriminate Hlinkage.
Qed.

(** C1: on an AArch64 host, a translator configured with
    [applyBuildOption "triple" "x86_64-pc-linux"] flavors a module to the
    host's triple, not to the configured one, which the lowering step
    passes to the compiler as [-triple]. *)
Theorem toBackendFlavor_declares_host_triple :
  let Env := example_host true true 0 in
  let T := snd (applyBuildOption "triple" "x86_64-pc-linux"
                  (example_translator Env ["k"])) in
  TargetTriple T = "x86_64-pc-linux" ∧
  fst (fst (toBackendFlavor Env T example_module)) = true ∧
  LLVM.TargetTriple (snd (fst (toBackendFlavor Env T example_module)))
  = "aarch64-unknown-linux-gnu" ∧
  Invocation T "clang" "out.s" "in.bc" !! 3 = Some "x86_64-pc-linux" ∧
  ¬ flavoring_sets_configured_triple Env T example_module.
Proof.
  repeat split; try reflexivity.
  unfold flavoring_sets_configured_triple.
  rewrite flavorBeforeLink_triple. discriminate.
Qed.

(** ** Lowering *)

Lemma is_substring_suffix (pre s : string) : is_substring s (pre +:+ s).
Proof.
  exists pre, "". f_equal. induction s as [|c s IH]; [done|].
  change (String c s +:+ "") with (String c (s +:+ "")). by f_equal.
Qed.

Lemma app_singleton_neq {A} (l : list A) (x : A) : l ≠ l ++ [x].
Proof.
  intros Heq. apply (f_equal length) in Heq.
  rewrite length_app in Heq. simpl in Heq. lia.
Qed.

Section Lowering.

Variable Env : Environment.

(** What the guarded scope does, by the exit code of the compiler and the
    presence of the result file. *)
Lemma translateScoped_cases (M : LLVM.Module) (In Out : LLVM.TempFile)
  (S : Lowering) :
  let W := debug_info
             ("LLVMToCpu: Invoking "
              +:+ ArgString (Invocation (this S) (HIPSYCL_CLANG_PATH Env)
                               (LLVM.TmpName Out) (LLVM.TmpName In)) +:+ LF)
             (write_file (LLVM.TmpName In) (bitcodeOf Env M) (world S)) in
  let Run := ExecuteAndWait Env (HIPSYCL_CLANG_PATH Env)
               (Invocation (this S) (HIPSYCL_CLANG_PATH Env)
                  (LLVM.TmpName Out) (LLVM.TmpName In)) W in
  translateScoped Env M In Out S
  = if negb (fst Run =? 0)%Z then
      (false,
       {| this := registerError
                    ("LLVMToCpu: clang invocation failed with exit code "
                     +:+ to_string (fst Run)) (this S);
          out := out S; world := snd Run |})
    else
      match MemoryBuffer_getFile (LLVM.TmpName Out) (snd Run) with
      | LLVM.Failure Err =>
          (false,
           {| this := registerError
                        ("LLVMToCpu: Could not read result file" +:+ Err)
                        (this S);
              out := out S; world := snd Run |})
      | LLVM.Value Buffer =>
          (true, {| this := this S; out := Buffer; world := snd Run |})
      end.
Proof.
  intros W Run. unfold translateScoped. fold W. fold Run.
  by destruct Run as [R W'].
Qed.

Lemma ExecuteAndWait_spawned (Program : string) (Args : list string)
  (W : World) :
  spawned (snd (ExecuteAndWait Env Program Args W))
  = spawned W ++ [(Program, Args, fst (ExecuteAndWait Env Program Args W))].
Proof.
  unfold ExecuteAndWait. by destruct (runProgram Env Program Args (files W)).
Qed.

(** The guarded scope runs the compiler exactly once, with the argument
    vector [Invocation]. *)
Lemma translateScoped_spawned (M : LLVM.Module) (In Out : LLVM.TempFile)
  (S : Lowering) :
  ∃ R, spawned (world (snd (translateScoped Env M In Out S)))
       = spawned (world S)
         ++ [(HIPSYCL_CLANG_PATH Env,
              Invocation (this S) (HIPSYCL_CLANG_PATH Env)
                (LLVM.TmpName Out) (LLVM.TmpName In), R)].
Proof.
  rewrite translateScoped_cases.
  set (Run := ExecuteAndWait Env _ _ _).
  exists (fst Run).
  assert (spawned (snd Run)
          = spawned (world S)
            ++ [(HIPSYCL_CLANG_PATH Env,
                 Invocation (this S) (HIPSYCL_CLANG_PATH Env)
                   (LLVM.TmpName Out) (LLVM.TmpName In), fst Run)]) as Hsp
    by apply ExecuteAndWait_spawned.
  destruct (negb _); [done|]. by destruct (MemoryBuffer_getFile _ _).
Qed.

(** When the process the guarded scope ran left with a code other than
    0, the scope fails with the message that names this code. *)
Lemma translateScoped_exit_code (M : LLVM.Module) (In Out : LLVM.TempFile)
  (S : Lowering) (Program : string) (Args : list string) (R : Z) :
  spawned (world (snd (translateScoped Env M In Out S)))
  = spawned (world S) ++ [(Program, Args, R)] →
  R ≠ 0%Z →
  fst (translateScoped Env M In Out S) = false ∧
  this (snd (translateScoped Env M In Out S))
  = registerError
      ("LLVMToCpu: clang invocation failed with exit code " +:+ to_string R)
      (this S).
Proof.
  rewrite translateScoped_cases.
  set (Run := ExecuteAndWait Env _ _ _).
  assert (spawned (snd Run)
          = spawned (world S)
            ++ [(HIPSYCL_CLANG_PATH Env,
                 Invocation (this S) (HIPSYCL_CLANG_PATH Env)
                   (LLVM.TmpName Out) (LLVM.TmpName In), fst Run)]) as Hsp
    by apply ExecuteAndWait_spawned.
  assert (spawned (snd Run) = spawned (world S) ++ [(Program, Args, R)]
          → fst Run = R) as Hcode.
  { rewrite Hsp. intros Heq%app_inv_head. by simplify_eq. }
  destruct (fst Run =? 0)%Z eqn:HR; simpl.
  - apply Z.eqb_eq in HR.
    destruct (MemoryBuffer_getFile _ _); simpl; intros Heq%Hcode; lia.
  - intros Heq%Hcode. by rewrite Heq.
Qed.

(** A failing run of the guarded scope appends one entry to the error log
    and leaves [out] alone; a successful one leaves the log alone. *)
Lemma translateScoped_result (M : LLVM.Module) (In Out : LLVM.TempFile)
  (S : Lowering) :
  let R := translateScoped Env M In Out S in
  (fst R = false →
   out (snd R) = out S ∧ ∃ E, this (snd R) = registerError E (this S)) ∧
  (fst R = true → this (snd R) = this S).
Proof.
  rewrite translateScoped_cases. cbv zeta.
  destruct (negb _); simpl.
  { split; [intros _; split; [done|by eexists]|done]. }
  destruct (MemoryBuffer_getFile _ _); simpl.
  - split; done.
  - split; [intros _; split; [done|by eexists]|done].
Qed.

Lemma TempFile_create_spawned (Model : string) (W : World) :
  spawned (snd (TempFile_create Env Model W)) = spawned W.
Proof.
  unfold TempFile_create. by destruct (createUniquePath Env Model (files W)).
Qed.

(** The world in which the second temporary file is asked for has seen no
    process more than the world the call started in. *)
Lemma temp_files_spawned (M : LLVM.Module) (S : Lowering)
  (InputFile OutputFile : LLVM.Expected LLVM.TempFile) (W1 W2 : World) :
  TempFile_create Env "hipsycl-sscp-cpu-%%%%%%.bc"
    (write_file "hipsycl-sscp-cpu.ll" (printModule Env M) (world S))
  = (InputFile, W1) →
  TempFile_create Env "hipsycl-sscp-cpu-%%%%%%.s" W1 = (OutputFile, W2) →
  spawned W2 = spawned (world S).
Proof.
  intros H1 H2.
  change W2 with (snd (OutputFile, W2)). rewrite <- H2.
  rewrite TempFile_create_spawned.
  change W1 with (snd (InputFile, W1)). rewrite <- H1.
  by rewrite TempFile_create_spawned.
Qed.

(** X16: whenever [translateToBackendFormat] returns failure, [out] is
    what it was and the error log has exactly one more entry; and when the
    call ran the external compiler and that exited with a code other than
    0, the call returns failure and the entry it appends contains that
    code in decimal (["17"] for the code 17). *)
Theorem translateToBackendFormat_failure (M : LLVM.Module) (S : Lowering) :
  let R := translateToBackendFormat Env M S in
  (fst R = Some false →
     out (snd R) = out S ∧
     ∃ E, Errors (this (snd R)) = Errors (this S) ++ [E]) ∧
  (∀ Program Args Code,
     spawned (world (snd R)) = spawned (world S) ++ [(Program, Args, Code)] →
     Code ≠ 0%Z →
     fst R = Some false ∧
     ∃ E, Errors (this (snd R)) = Errors (this S) ++ [E] ∧
          is_substring (to_string Code) E).
Proof.
  cbv zeta. unfold translateToBackendFormat.
  destruct (TempFile_create Env "hipsycl-sscp-cpu-%%%%%%.bc" _)
    as [InputFile W1] eqn:H1.
  destruct (TempFile_create Env "hipsycl-sscp-cpu-%%%%%%.s" W1)
    as [OutputFile W2] eqn:H2.
  pose proof (temp_files_spawned _ _ _ _ _ _ H1 H2) as Hsp.
  destruct InputFile as [InputFile|E1]; [destruct OutputFile as [OutputFile|E2]|].
  - pose proof (translateScoped_result M InputFile OutputFile
                  {| this := this S; out := out S; world := W2 |}) as Hres.
    pose proof (translateScoped_exit_code M InputFile OutputFile
                  {| this := this S; out := out S; world := W2 |}) as Hcode.
    cbv zeta in Hres. simpl in Hres, Hcode.
    destruct (translateScoped Env M InputFile OutputFile _) as [Result S'].
    simpl in *. split.
    + intros [= Hfalse]. destruct Hres as [Hres _].
      destruct (Hres Hfalse) as [Hout [E HE]].
      split; [done|]. exists E. by rewrite HE.
    + intros Program Args Code Hrun HCode. rewrite <- Hsp in Hrun.
      destruct (Hcode Program Args Code Hrun HCode) as [Hfalse Hthis].
      split; [by rewrite Hfalse|]. rewrite Hthis. eexists.
      split; [reflexivity|]. apply is_substring_suffix.
  - unfold failedTempFile. destruct (TmpName_of_failed Env E2); simpl.
    + split; [intros _; split; [done|by eexists]|].
      intros Program Args Code Hrun. rewrite Hsp in Hrun.
      by apply app_singleton_neq in Hrun.
    + split; [done|].
      intros Program Args Code Hrun. rewrite Hsp in Hrun.
      by apply app_singleton_neq in Hrun.
  - unfold failedTempFile. destruct (TmpName_of_failed Env E1); simpl.
    + split; [intros _; split; [done|by eexists]|].
      intros Program Args Code Hrun. rewrite Hsp in Hrun.
      by apply app_singleton_neq in Hrun.
    + split; [done|].
      intros Program Args Code Hrun. rewrite Hsp in Hrun.
      by apply app_singleton_neq in Hrun.
Qed.

(** C6: when both temporary files were created, the call runs the compiler
    binary once, with the arguments [-cc1 -triple <TargetTriple> -O3 -S -x
    ir -o <output file> <input file>] after the binary's own path, followed by
    nothing when the CPU model is ["generic"] and by [-target-cpu <MCpu>]
    when it is anything else. *)
Theorem translateToBackendFormat_invocation (M : LLVM.Module) (S : Lowering)
  (InputFile OutputFile : LLVM.TempFile) (W1 W2 : World) :
  TempFile_create Env "hipsycl-sscp-cpu-%%%%%%.bc"
    (write_file "hipsycl-sscp-cpu.ll" (printModule Env M) (world S))
  = (LLVM.Value InputFile, W1) →
  TempFile_create Env "hipsycl-sscp-cpu-%%%%%%.s" W1
  = (LLVM.Value OutputFile, W2) →
  ∃ (R : Z) (cpu_flags : list string),
    spawned (world (snd (translateToBackendFormat Env M S)))
    = spawned (world S)
      ++ [(HIPSYCL_CLANG_PATH Env,
           [HIPSYCL_CLANG_PATH Env; "-cc1"; "-triple"; TargetTriple (this S);
            "-O3"; "-S"; "-x"; "ir"; "-o"; LLVM.TmpName OutputFile;
            LLVM.TmpName InputFile] ++ cpu_flags,
           R)] ∧
    (MCpu (this S) = "generic" → cpu_flags = []) ∧
    (MCpu (this S) ≠ "generic" → cpu_flags = ["-target-cpu"; MCpu (this S)]).
Proof.
  intros H1 H2.
  pose proof (temp_files_spawned _ _ _ _ _ _ H1 H2) as Hsp.
  unfold translateToBackendFormat. rewrite H1, H2.
  destruct (translateScoped_spawned M InputFile OutputFile
              {| this := this S; out := out S; world := W2 |}) as [R HR].
  destruct (translateScoped Env M InputFile OutputFile _) as [Result S'].
  simpl in *. rewrite Hsp in HR.
  exists R,
    (if decide (MCpu (this S) = "generic") then []
     else ["-target-cpu"; MCpu (this S)]).
  split; [|split].
  - rewrite HR. do 3 f_equal. unfold Invocation.
    destruct (decide (MCpu (this S) = "generic")) as [Heq|Hne].
    + by rewrite Heq.
    + by rewrite (eqb_string_neq _ _ Hne).
  - intros Heq. by rewrite decide_True.
  - intros Hne. by rewrite decide_False.
Qed.

(** When both temporary files were created, neither is there when the
    call returns, whatever the result. *)
Lemma translateToBackendFormat_discards_both (M : LLVM.Module) (S : Lowering)
  (InputFile OutputFile : LLVM.TempFile) (W1 W2 : World) :
  TempFile_create Env "hipsycl-sscp-cpu-%%%%%%.bc"
    (write_file "hipsycl-sscp-cpu.ll" (printModule Env M) (world S))
  = (LLVM.Value InputFile, W1) →
  TempFile_create Env "hipsycl-sscp-cpu-%%%%%%.s" W1
  = (LLVM.Value OutputFile, W2) →
  let fs := files (world (snd (translateToBackendFormat Env M S))) in
  fs !! LLVM.TmpName InputFile = None ∧ fs !! LLVM.TmpName OutputFile = None.
Proof.
  intros H1 H2. cbv zeta.
  unfold translateToBackendFormat. rewrite H1, H2.
  destruct (translateScoped Env M InputFile OutputFile _) as [Result S'].
  simpl. split.
  - apply lookup_delete_eq.
  - rewrite lookup_delete. case_decide; [done|apply lookup_delete_eq].
Qed.

(** When the first temporary file was created and the second was not,
    the call leaves through the second error path, without success, and
    the first file is still there. *)
Lemma translateToBackendFormat_early_return (M : LLVM.Module) (S : Lowering)
  (InputFile : LLVM.TempFile) (E : string) (W1 W2 : World) :
  TempFile_create Env "hipsycl-sscp-cpu-%%%%%%.bc"
    (write_file "hipsycl-sscp-cpu.ll" (printModule Env M) (world S))
  = (LLVM.Value InputFile, W1) →
  TempFile_create Env "hipsycl-sscp-cpu-%%%%%%.s" W1 = (LLVM.Failure E, W2) →
  fst (translateToBackendFormat Env M S) ≠ Some true ∧
  is_Some (files (world (snd (translateToBackendFormat Env M S)))
             !! LLVM.TmpName InputFile).
Proof.
  intros H1 H2. unfold translateToBackendFormat. rewrite H1, H2.
  unfold failedTempFile.
  assert (is_Some (files W2 !! LLVM.TmpName InputFile)) as Hthere;
    [|by destruct (TmpName_of_failed Env E)].
  unfold TempFile_create in H1, H2.
  destruct (createUniquePath Env _ (files W1)); simplify_eq.
  destruct (createUniquePath Env _ _) as [Path|]; simplify_eq.
  simpl. rewrite lookup_insert_eq. eauto.
Qed.

End Lowering.

(** **** Lowering on the example host *)

(** The compiler exits with 17: the call fails and logs the code. *)
Lemma translateToBackendFormat_failure_witness :
  let R := translateToBackendFormat (example_host true true 17) example_module
             (example_lowering
                (example_translator (example_host true true 17) ["k"])) in
  fst R = Some false ∧
  ∃ E, Errors (this (snd R)) = [] ++ [E] ∧ is_substring "17" E.
Proof.
  eapply (proj2 (translateToBackendFormat_failure (example_host true true 17)
                   example_module
                   (example_lowering
                      (example_translator (example_host true true 17) ["k"])))
            _ _ 17%Z).
  - vm_compute. reflexivity.
  - discriminate.
Defined.

(** A translator configured for [x86_64-pc-linux] passes that triple, and
    the host's CPU name after [-target-cpu]. *)
Lemma translateToBackendFormat_invocation_witness :
  ∃ (R : Z) (cpu_flags : list string),
    spawned (world (snd (translateToBackendFormat (example_host true true 0)
                           example_module
                           (example_lowering
                              (snd (applyBuildOption "triple" "x86_64-pc-linux"
                                      (example_translator
                                         (example_host true true 0) ["k"])))))))
    = [] ++ [("/usr/bin/clang",
              ["/usr/bin/clang"; "-cc1"; "-triple"; "x86_64-pc-linux";
               "-O3"; "-S"; "-x"; "ir"; "-o";
               "/tmp/hipsycl-sscp-cpu-d4e5f6.s";
               "/tmp/hipsycl-sscp-cpu-a1b2c3.bc"] ++ cpu_flags,
              R)] ∧
    ("cortex-a72" = "generic" → cpu_flags = []) ∧
    ("cortex-a72" ≠ "generic" → cpu_flags = ["-target-cpu"; "cortex-a72"]).
Proof.
  eapply (translateToBackendFormat_invocation (example_host true true 0)
            example_module
            (example_lowering
               (snd (applyBuildOption "triple" "x86_64-pc-linux"
                       (example_translator (example_host true true 0) ["k"]))))
            (LLVM.mkTempFile "/tmp/hipsycl-sscp-cpu-a1b2c3.bc")
            (LLVM.mkTempFile "/tmp/hipsycl-sscp-cpu-d4e5f6.s")).
  - reflexivity.
  - reflexivity.
Defined.

(** C3: on a host where the first temporary file is created and the
    second cannot be (and where the read of [TmpName] through the failed
    [Expected] goes through), the call returns failure with one logged
    error, and the first temporary file is still in the file system: the
    early return comes before the scope guards that would remove it. *)
Theorem translateToBackendFormat_leaves_input_temp :
  let Env := example_host true false 0 in
  let S := example_lowering (example_translator Env ["k"]) in
  let R := translateToBackendFormat Env example_module S in
  TempFile_create Env "hipsycl-sscp-cpu-%%%%%%.bc"
    (write_file "hipsycl-sscp-cpu.ll" (printModule Env example_module) (world S))
  = (LLVM.Value (LLVM.mkTempFile "/tmp/hipsycl-sscp-cpu-a1b2c3.bc"),
     write_file "/tmp/hipsycl-sscp-cpu-a1b2c3.bc" ""
       (write_file "hipsycl-sscp-cpu.ll" (printModule Env example_module)
          (world S))) ∧
  fst R = Some false ∧
  Errors (this (snd R)) = ["LLVMToCpu: Could not create temp file: "] ∧
  files (world (snd R)) !! "/tmp/hipsycl-sscp-cpu-a1b2c3.bc" = Some "" ∧
  ¬ temp_files_absent_after Env example_module S.
Proof.
  repeat split; try reflexivity.
  unfold temp_files_absent_after.
  intros [Hinput _].
  specialize (Hinput (LLVM.mkTempFile "/tmp/hipsycl-sscp-cpu-a1b2c3.bc") eq_refl).
  vm_compute in Hinput. discriminate Hinput.
Qed.

(** C5: on a host where the second temporary file cannot be created and
    [Expected] checks its state, the call does not return failure and
    appends nothing to the error log: building the message for
    [registerError] it reads [TmpName] through the failed [Expected], and
    the process aborts there, with the log still empty. *)
Theorem translateToBackendFormat_aborts_on_failed_temp :
  let Env := example_host_checking true false 0 in
  let S := example_lowering (example_translator Env ["k"]) in
  let R := translateToBackendFormat Env example_module S in
  TempFile_create Env "hipsycl-sscp-cpu-%%%%%%.s"
    (write_file "/tmp/hipsycl-sscp-cpu-a1b2c3.bc" ""
       (write_file "hipsycl-sscp-cpu.ll" (printModule Env example_module)
          (world S)))
  = (LLVM.Failure "Too many open files",
     write_file "/tmp/hipsycl-sscp-cpu-a1b2c3.bc" ""
       (write_file "hipsycl-sscp-cpu.ll" (printModule Env example_module)
          (world S))) ∧
  fst R = None ∧
  Errors (this (snd R)) = [] ∧
  ¬ temp_failure_is_reported Env example_module S.
Proof.
  repeat split; try reflexivity.
  unfold temp_failure_is_reported. intros Hclaim.
  destruct Hclaim as [Hresult _]; [right; by eexists|].
  discriminate Hresult.
Qed.

(** * Further properties of the translator *)

(** ** The kernel predicate and the build options *)

(** X1: [isKernelAfterFlavoring] decides membership of the function's
    name in the kernel names: it answers true exactly for the names of the
    sequence and false exactly for all others, so for every name when the
    sequence is empty. *)
Theorem isKernelAfterFlavoring_membership (T : LLVMToCpuTranslator)
  (FName : string) :
  isKernelAfterFlavoring T FName = bool_decide (FName ∈ KernelNames T) ∧
  (isKernelAfterFlavoring T FName = false ↔ FName ∉ KernelNames T) ∧
  (KernelNames T = [] → isKernelAfterFlavoring T FName = false).
Proof.
  pose proof (isKernelAfterFlavoring_spec T FName) as Hspec.
  assert (isKernelAfterFlavoring T FName = false ↔ FName ∉ KernelNames T)
    as Hfalse.
  { rewrite <- Hspec. by destruct (isKernelAfterFlavoring T FName). }
  split; [|split; [done|]].
  - destruct (isKernelAfterFlavoring T FName) eqn:Hk; symmetry.
    + apply bool_decide_eq_true. by apply Hspec.
    + apply bool_decide_eq_false. by apply Hfalse.
  - intros Hnil. apply Hfalse. rewrite Hnil. apply not_elem_of_nil.
Qed.

Lemma isKernelAfterFlavoring_membership_witness :
  isKernelAfterFlavoring (example_translator (example_host true true 0) [])
    "k" = false.
Proof.
  apply (proj2 (proj2 (isKernelAfterFlavoring_membership
                         (example_translator (example_host true true 0) [])
                         "k"))).
  reflexivity.
Defined.

Lemma applyBuildOption_fields (Option Value : string)
  (T : LLVMToCpuTranslator) :
  let T' := snd (applyBuildOption Option Value T) in
  KernelNames T' = KernelNames T ∧ Errors T' = Errors T ∧
  TargetTriple T' = (if decide (Option = "triple") then Value
                     else TargetTriple T) ∧
  MCpu T' = (if decide (Option = "triple") then MCpu T
             else if decide (Option = "cpu") then Value else MCpu T).
Proof.
  cbv zeta. unfold applyBuildOption.
  destruct (decide (Option = "triple")) as [->|Htriple]; [done|].
  rewrite (eqb_string_neq _ _ Htriple).
  destruct (decide (Option = "cpu")) as [->|Hcpu]; [done|].
  by rewrite (eqb_string_neq _ _ Hcpu).
Qed.

Lemma applyBuildOptions_snoc (Options : list (string * string))
  (Option Value : string) (T : LLVMToCpuTranslator) :
  applyBuildOptions (Options ++ [(Option, Value)]) T
  = snd (applyBuildOption Option Value (applyBuildOptions Options T)).
Proof. unfold applyBuildOptions. by rewrite foldl_snoc. Qed.

Lemma last_value_snoc (Key Option Value : string)
  (Options : list (string * string)) :
  last_value Key (Options ++ [(Option, Value)])
  = if decide (Option = Key) then Some Value else last_value Key Options.
Proof.
  unfold last_value. rewrite filter_app, filter_cons, filter_nil. simpl.
  destruct (decide (Option = Key)).
  - rewrite fmap_app. apply last_snoc.
  - by rewrite app_nil_r.
Qed.

(** X2: after any sequence of [applyBuildOption] calls the target triple
    is the value given with the last ["triple"] option and the CPU model
    the value given with the last ["cpu"] option, each as it was when its
    key never occurred; unrecognised keys in between change nothing, and
    the kernel names and the error log stay as they were. *)
Theorem applyBuildOptions_last_wins (Options : list (string * string))
  (T : LLVMToCpuTranslator) :
  TargetTriple (applyBuildOptions Options T)
  = default (TargetTriple T) (last_value "triple" Options) ∧
  MCpu (applyBuildOptions Options T)
  = default (MCpu T) (last_value "cpu" Options) ∧
  KernelNames (applyBuildOptions Options T) = KernelNames T ∧
  Errors (applyBuildOptions Options T) = Errors T.
Proof.
  induction Options as [|[Option Value] Options IH] using rev_ind; [done|].
  destruct IH as (IHtriple & IHcpu & IHnames & IHerrors).
  rewrite applyBuildOptions_snoc, !last_value_snoc.
  destruct (applyBuildOption_fields Option Value (applyBuildOptions Options T))
    as (Hnames & Herrors & Htriple & Hcpu).
  rewrite Hnames, Herrors, Htriple, Hcpu.
  repeat split; try done.
  - by destruct (decide (Option = "triple")).
  - destruct (decide (Option = "triple")) as [->|]; [done|].
    by destruct (decide (Option = "cpu")).
Qed.

(** ** More on the kernel loop of flavoring *)

Lemma annotateKernel_unresolved (N : string) (M : LLVM.Module) :
  LLVM.getFunction N M = None → annotateKernel N M = M.
Proof. intros HN. unfold annotateKernel. by rewrite HN. Qed.

Lemma annotateKernels_unresolved (Names : list string) (M : LLVM.Module) :
  Forall (λ N, LLVM.getFunction N M = None) Names →
  annotateKernels Names M = M.
Proof.
  induction 1 as [|N Names HN _ IH]; [done|].
  simpl. by rewrite (annotateKernel_unresolved _ _ HN).
Qed.

Lemma annotateKernel_other_metadata (N Node : string) (M : LLVM.Module) :
  Node ≠ "hipsycl.sscp.annotations" →
  LLVM.getNamedMetadata Node (annotateKernel N M)
  = LLVM.getNamedMetadata Node M.
Proof.
  intros Hne. unfold annotateKernel.
  destruct (LLVM.getFunction N M); [|done].
  unfold LLVM.getNamedMetadata at 1. simpl.
  by rewrite lookup_insert_ne.
Qed.

Lemma annotateKernels_other_metadata (Names : list string) (Node : string)
  (M : LLVM.Module) :
  Node ≠ "hipsycl.sscp.annotations" →
  LLVM.getNamedMetadata Node (annotateKernels Names M)
  = LLVM.getNamedMetadata Node M.
Proof.
  intros Hne. revert M. induction Names as [|N Names IH]; intros M; [done|].
  simpl. by rewrite IH, annotateKernel_other_metadata.
Qed.

Section FlavoringFacts.

Variable Env : Environment.

Lemma flavorBeforeLink_resolves (T : LLVMToCpuTranslator) (N : string)
  (M : LLVM.Module) :
  is_Some (LLVM.getFunction N (flavorBeforeLink Env T M))
  ↔ is_Some (LLVM.getFunction N M).
Proof.
  rewrite flavorBeforeLink_function.
  destruct (decide (N ∈ KernelNames T)); [|done]. by rewrite fmap_is_Some.
Qed.

(** X3: the kernel loop and [isKernelAfterFlavoring] agree: a function of
    the module comes out of the loop with external linkage and otherwise
    unchanged when the predicate holds of its name, and exactly as it was
    when the predicate does not hold. *)
Theorem flavoring_agrees_with_isKernelAfterFlavoring
  (T : LLVMToCpuTranslator) (M : LLVM.Module) (Name : string)
  (F : LLVM.Function) :
  LLVM.getFunction Name M = Some F →
  LLVM.getFunction Name (flavorBeforeLink Env T M)
  = Some (if isKernelAfterFlavoring T Name
          then LLVM.setLinkage LLVM.ExternalLinkage F else F).
Proof.
  intros HF. rewrite flavorBeforeLink_function, HF.
  pose proof (isKernelAfterFlavoring_spec T Name) as Hspec.
  destruct (decide (Name ∈ KernelNames T)) as [Hin|Hnot].
  - apply Hspec in Hin. by rewrite Hin.
  - destruct (isKernelAfterFlavoring T Name); [|done].
    destruct Hnot. by apply Hspec.
Qed.

(** X4: when no kernel name resolves to a function of the module, in
    particular when there are no kernel names, the loop does nothing: the
    module handed to the linker is the given one with the host's triple,
    the annotation node is not even created, and [toBackendFlavor]
    succeeds or fails as the link of that module does. *)
Theorem flavoring_without_matching_kernels (T : LLVMToCpuTranslator)
  (M : LLVM.Module) :
  Forall (λ N, LLVM.getFunction N M = None) (KernelNames T) →
  flavorBeforeLink Env T M = LLVM.setTargetTriple (getProcessTriple Env) M ∧
  LLVM.NamedMDList (flavorBeforeLink Env T M) = LLVM.NamedMDList M ∧
  fst (fst (toBackendFlavor Env T M))
  = link_ok (linkBitcodeFile Env
               (LLVM.setTargetTriple (getProcessTriple Env) M)
               (BuiltinBitcodeFile Env)).
Proof.
  intros Hnone.
  assert (flavorBeforeLink Env T M
          = LLVM.setTargetTriple (getProcessTriple Env) M) as Heq.
  { unfold flavorBeforeLink. by apply annotateKernels_unresolved. }
  split; [done|]. split; [by rewrite Heq|].
  unfold toBackendFlavor. rewrite Heq.
  by destruct (link_ok _).
Qed.

(** X5: the kernel loop neither adds nor removes a function and never
    touches a body; the only change to a function is that its linkage may
    become external. *)
Theorem flavoring_preserves_functions (T : LLVMToCpuTranslator)
  (M : LLVM.Module) (Name : string) :
  dom (LLVM.FunctionList (flavorBeforeLink Env T M))
  = dom (LLVM.FunctionList M) ∧
  LLVM.Body <$> LLVM.getFunction Name (flavorBeforeLink Env T M)
  = LLVM.Body <$> LLVM.getFunction Name M ∧
  (LLVM.Linkage <$> LLVM.getFunction Name (flavorBeforeLink Env T M)
   = LLVM.Linkage <$> LLVM.getFunction Name M ∨
   LLVM.Linkage <$> LLVM.getFunction Name (flavorBeforeLink Env T M)
   = Some LLVM.ExternalLinkage).
Proof.
  split; [|split].
  - apply set_eq. intros N. rewrite !elem_of_dom.
    apply (flavorBeforeLink_resolves T N M).
  - rewrite flavorBeforeLink_function.
    destruct (decide (Name ∈ KernelNames T)); [|done].
    by destruct (LLVM.getFunction Name M).
  - rewrite flavorBeforeLink_function.
    destruct (decide (Name ∈ KernelNames T)); [|by left].
    destruct (LLVM.getFunction Name M); [by right|by left].
Qed.

(** X6: the kernel loop only ever appends to the annotation node: every
    other named metadata node is as before, the old annotations are a
    prefix of the new ones, at most one record is added per kernel name,
    and each added record is the triple (function, ["kernel"], i32 1) of a
    kernel name that resolves in the module. *)
Theorem flavoring_metadata_frame (T : LLVMToCpuTranslator) (M : LLVM.Module) :
  (∀ Node, Node ≠ "hipsycl.sscp.annotations" →
     LLVM.getNamedMetadata Node (flavorBeforeLink Env T M)
     = LLVM.getNamedMetadata Node M) ∧
  ∃ Added,
    annotations (flavorBeforeLink Env T M) = annotations M ++ Added ∧
    (length Added ≤ length (KernelNames T))%nat ∧
    Forall (λ Tup, ∃ N, N ∈ KernelNames T ∧
                        is_Some (LLVM.getFunction N M) ∧
                        Tup = [LLVM.ValueAsMetadata N; LLVM.MDString "kernel";
                               LLVM.ConstantAsMetadata 32 1]) Added.
Proof.
  split.
  - intros Node Hne. unfold flavorBeforeLink.
    by rewrite annotateKernels_other_metadata.
  - eexists. split; [apply flavorBeforeLink_annotations|]. split.
    + rewrite length_fmap. apply length_filter.
    + apply Forall_fmap, Forall_forall. intros N HN.
      apply list_elem_of_filter in HN as [Hres Hin].
      exists N. by repeat split.
Qed.

(** X7: which functions end up external depends only on which names are
    among the kernel names, not on their order or on how often a name is
    given. *)
Theorem flavoring_functions_by_name_set (T T' : LLVMToCpuTranslator)
  (M : LLVM.Module) :
  (∀ N, N ∈ KernelNames T ↔ N ∈ KernelNames T') →
  LLVM.FunctionList (flavorBeforeLink Env T M)
  = LLVM.FunctionList (flavorBeforeLink Env T' M).
Proof.
  intros Hsame. apply map_eq. intros N.
  pose proof (flavorBeforeLink_function Env T N M) as H1.
  pose proof (flavorBeforeLink_function Env T' N M) as H2.
  unfold LLVM.getFunction in H1, H2. rewrite H1, H2.
  destruct (decide (N ∈ KernelNames T)) as [Hin|Hnot].
  - rewrite decide_True; [done|by apply Hsame].
  - rewrite decide_False; [done|by rewrite <- Hsame].
Qed.

(** X8: running the kernel loop a second time on its own result changes
    no function, but appends every record once more: the loop is
    idempotent on linkage and not on the annotations. *)
Theorem flavoring_twice (T : LLVMToCpuTranslator) (M : LLVM.Module) :
  let M1 := flavorBeforeLink Env T M in
  let M2 := flavorBeforeLink Env T M1 in
  let Records :=
    kernelOperands
      <$> filter (λ N, is_Some (LLVM.getFunction N M)) (KernelNames T) in
  LLVM.FunctionList M2 = LLVM.FunctionList M1 ∧
  LLVM.TargetTriple M2 = LLVM.TargetTriple M1 ∧
  annotations M2 = annotations M ++ Records ++ Records.
Proof.
  cbv zeta. split; [|split].
  - apply map_eq. intros N.
    change (LLVM.getFunction N (flavorBeforeLink Env T (flavorBeforeLink Env T M))
            = LLVM.getFunction N (flavorBeforeLink Env T M)).
    rewrite !flavorBeforeLink_function.
    destruct (decide (N ∈ KernelNames T)); [|done].
    apply setLinkage_idemp.
  - by rewrite !flavorBeforeLink_triple.
  - rewrite (flavorBeforeLink_annotations Env T (flavorBeforeLink Env T M)).
    rewrite flavorBeforeLink_annotations, <- app_assoc.
    do 3 f_equal. apply list_filter_iff. intros N.
    apply flavorBeforeLink_resolves.
Qed.

(** X9: as long as no ["triple"] option was applied to a translator since
    its construction, flavoring declares the module for the translator's
    target triple, whatever other options were applied. *)
Theorem flavoring_triple_without_triple_option (KN : list string)
  (Options : list (string * string)) (M : LLVM.Module) :
  Forall (λ OV, OV.1 ≠ "triple") Options →
  LLVM.TargetTriple
    (flavorBeforeLink Env
       (applyBuildOptions Options (createLLVMToCpuTranslator Env KN)) M)
  = TargetTriple (applyBuildOptions Options (createLLVMToCpuTranslator Env KN)).
Proof.
  intros Hnone. rewrite flavorBeforeLink_triple.
  induction Options as [|[Option Value] Options IH] using rev_ind; [done|].
  apply Forall_app in Hnone as [Hrest Hlast].
  apply Forall_cons in Hlast as [Hne _]. simpl in Hne.
  rewrite applyBuildOptions_snoc.
  destruct (applyBuildOption_fields Option Value
              (applyBuildOptions Options (createLLVMToCpuTranslator Env KN)))
    as (_ & _ & Htriple & _).
  rewrite Htriple, decide_False by done. by apply IH.
Qed.

End FlavoringFacts.

(** **** The kernel loop on the example host *)

Lemma flavoring_agrees_with_isKernelAfterFlavoring_witness :
  LLVM.getFunction "k"
    (flavorBeforeLink (example_host true true 0)
       (example_translator (example_host true true 0) ["k"]) example_module)
  = Some (LLVM.setLinkage LLVM.ExternalLinkage example_k).
Proof.
  apply (flavoring_agrees_with_isKernelAfterFlavoring
           (example_host true true 0)
           (example_translator (example_host true true 0) ["k"])
           example_module "k" example_k).
  reflexivity.
Defined.

Lemma flavoring_without_matching_kernels_witness :
  flavorBeforeLink (example_host true true 0)
    (example_translator (example_host true true 0) ["absent"]) example_module
  = LLVM.setTargetTriple "aarch64-unknown-linux-gnu" example_module.
Proof.
  apply (flavoring_without_matching_kernels (example_host true true 0)
           (example_translator (example_host true true 0) ["absent"])
           example_module).
  apply Forall_cons. split; [reflexivity|apply Forall_nil_2].
Defined.

Lemma flavoring_functions_by_name_set_witness :
  LLVM.FunctionList
    (flavorBeforeLink (example_host true true 0)
       (example_translator (example_host true true 0) ["k"; "helper"; "k"])
       example_module)
  = LLVM.FunctionList
      (flavorBeforeLink (example_host true true 0)
         (example_translator (example_host true true 0) ["helper"; "k"])
         example_module).
Proof.
  apply (flavoring_functions_by_name_set (example_host true true 0)).
  intros N. simpl. rewrite !elem_of_cons, elem_of_nil. tauto.
Defined.

Lemma flavoring_triple_without_triple_option_witness :
  LLVM.TargetTriple
    (flavorBeforeLink (example_host true true 0)
       (applyBuildOptions [("cpu", "generic"); ("bogus", "x")]
          (createLLVMToCpuTranslator (example_host true true 0) ["k"]))
       example_module)
  = TargetTriple
      (applyBuildOptions [("cpu", "generic"); ("bogus", "x")]
         (createLLVMToCpuTranslator (example_host true true 0) ["k"])).
Proof.
  apply (flavoring_triple_without_triple_option (example_host true true 0)).
  apply Forall_cons. split; [discriminate|].
  apply Forall_cons. split; [discriminate|apply Forall_nil_2].
Defined.

(** ** More on lowering *)

Lemma string_app_nil_r (s : string) : s +:+ "" = s.
Proof.
  induction s as [|c s IH]; [done|].
  change (String c s +:+ "") with (String c (s +:+ "")). by f_equal.
Qed.

Lemma string_app_assoc (s t u : string) : (s +:+ t) +:+ u = s +:+ t +:+ u.
Proof.
  induction s as [|c s IH]; [done|].
  change (String c ((s +:+ t) +:+ u) = String c (s +:+ t +:+ u)).
  by f_equal.
Qed.

(** The loop that builds the debug string, with its accumulator. *)
Lemma ArgString_foldl (Acc : string) (Invocation : list string) :
  foldl (λ ArgString S, ArgString +:+ S +:+ " ") Acc Invocation
  = Acc +:+ ArgString Invocation.
Proof.
  unfold ArgString. revert Acc.
  induction Invocation as [|S Invocation IH]; intros Acc; simpl.
  - by rewrite string_app_nil_r.
  - rewrite IH, (IH ("" +:+ S +:+ " ")).
    change ("" +:+ S +:+ " ") with (S +:+ " ").
    by rewrite !string_app_assoc.
Qed.

(** X10: the string of arguments written to the debug stream is the
    concatenation of the arguments, each followed by one space: it is
    empty for no argument, and the string of a concatenation of vectors is
    the concatenation of their strings. *)
Theorem ArgString_concat (S : string) (Inv Inv' : list string) :
  ArgString [] = "" ∧
  ArgString (S :: Inv) = S +:+ " " +:+ ArgString Inv ∧
  ArgString (Inv ++ Inv') = ArgString Inv +:+ ArgString Inv'.
Proof.
  split; [done|]. split.
  - unfold ArgString at 1. simpl. rewrite ArgString_foldl.
    change ("" +:+ S +:+ " ") with (S +:+ " ").
    by rewrite string_app_assoc.
  - unfold ArgString at 1. rewrite foldl_app.
    fold (ArgString Inv). apply ArgString_foldl.
Qed.

Lemma Invocation_head (T : LLVMToCpuTranslator)
  (ClangPath OutputFilename InputName : string) :
  head (Invocation T ClangPath OutputFilename InputName) = Some ClangPath.
Proof. unfold Invocation. by destruct (negb _). Qed.

Section LoweringFacts.

Variable Env : Environment.

(** The guarded scope with the external process and the read of the
    result file spelled out. *)
Lemma translateScoped_run (M : LLVM.Module) (In Out : LLVM.TempFile)
  (S : Lowering) :
  let Inv := Invocation (this S) (HIPSYCL_CLANG_PATH Env)
               (LLVM.TmpName Out) (LLVM.TmpName In) in
  let Run := runProgram Env (HIPSYCL_CLANG_PATH Env) Inv
               (<[LLVM.TmpName In := bitcodeOf Env M]> (files (world S))) in
  let R := translateScoped Env M In Out S in
  files (world (snd R)) = snd Run ∧
  spawned (world (snd R))
  = spawned (world S) ++ [(HIPSYCL_CLANG_PATH Env, Inv, fst Run)] ∧
  fst R = bool_decide (fst Run = 0%Z ∧ is_Some (snd Run !! LLVM.TmpName Out)) ∧
  (fst R = true → snd Run !! LLVM.TmpName Out = Some (out (snd R))).
Proof.
  cbv zeta. rewrite translateScoped_cases. cbv zeta.
  unfold ExecuteAndWait, MemoryBuffer_getFile. simpl.
  destruct (runProgram Env _ _ _) as [Code fs]. simpl.
  destruct (Code =? 0)%Z eqn:HCode; simpl.
  - apply Z.eqb_eq in HCode as ->.
    destruct (fs !! LLVM.TmpName Out) as [Buffer|] eqn:HOut; simpl.
    + repeat split;
        first [done|symmetry; apply bool_decide_eq_true; by eauto].
    + repeat split;
        first [done|symmetry; apply bool_decide_eq_false; by intros [_ [? ?]]].
  - apply Z.eqb_neq in HCode.
    repeat split;
      first [done|symmetry; apply bool_decide_eq_false; by intros [? _]].
Qed.

(** X11: a lowering call never changes the kernel names, the target
    triple or the CPU model; the error log only grows, by nothing when
    the call succeeds and by at most one entry in any case. *)
Theorem translateToBackendFormat_translator_frame (M : LLVM.Module)
  (S : Lowering) :
  let R := translateToBackendFormat Env M S in
  KernelNames (this (snd R)) = KernelNames (this S) ∧
  TargetTriple (this (snd R)) = TargetTriple (this S) ∧
  MCpu (this (snd R)) = MCpu (this S) ∧
  (fst R = Some true → Errors (this (snd R)) = Errors (this S)) ∧
  Errors (this S) `prefix_of` Errors (this (snd R)) ∧
  (length (Errors (this (snd R))) ≤ length (Errors (this S)) + 1)%nat.
Proof.
  cbv zeta.
  assert (∀ T' : LLVMToCpuTranslator,
            (T' = this S ∨ ∃ E, T' = registerError E (this S)) →
            KernelNames T' = KernelNames (this S) ∧
            TargetTriple T' = TargetTriple (this S) ∧
            MCpu T' = MCpu (this S) ∧
            Errors (this S) `prefix_of` Errors T' ∧
            (length (Errors T') ≤ length (Errors (this S)) + 1)%nat) as Hframe.
  { intros T' [->|[E ->]].
    - repeat split; try done. lia.
    - repeat split; try done; simpl.
      + by eexists.
      + rewrite length_app. simpl. lia. }
  assert ((this (snd (translateToBackendFormat Env M S)) = this S ∨
           ∃ E, this (snd (translateToBackendFormat Env M S))
                = registerError E (this S)) ∧
          (fst (translateToBackendFormat Env M S) = Some true →
           this (snd (translateToBackendFormat Env M S)) = this S)) as [Hor Hok].
  { unfold translateToBackendFormat.
    destruct (TempFile_create Env "hipsycl-sscp-cpu-%%%%%%.bc" _)
      as [[InputFile|E1] W1].
    - destruct (TempFile_create Env "hipsycl-sscp-cpu-%%%%%%.s" W1)
        as [[OutputFile|E2] W2].
      + pose proof (translateScoped_result Env M InputFile OutputFile
                      {| this := this S; out := out S; world := W2 |}) as Hres.
        cbv zeta in Hres. simpl in Hres.
        destruct (translateScoped Env M InputFile OutputFile _)
          as [[|] S']; simpl in *.
        * destruct Hres as [_ Hres]. split; [left|]; by rewrite Hres.
        * destruct Hres as [Hres _]. destruct (Hres eq_refl) as [_ [E HE]].
          split; [right; by exists E|done].
      + unfold failedTempFile. destruct (TmpName_of_failed Env E2); simpl.
        * split; [right; by eexists|done].
        * split; [by left|done].
    - destruct (TempFile_create Env "hipsycl-sscp-cpu-%%%%%%.s" W1)
        as [OutputFile W2].
      unfold failedTempFile. destruct (TmpName_of_failed Env E1); simpl.
      + split; [right; by eexists|done].
      + split; [by left|done]. }
  destruct (Hframe _ Hor) as (? & ? & ? & ? & ?).
  repeat split; try done.
  intros Htrue. by rewrite (Hok Htrue).
Qed.

(** X12: a lowering call starts at most one process.  Either it starts
    none and does not succeed, or it runs the compiler binary once, with
    the binary's path as first argument; then it succeeds only if that
    process exited with 0, and returns failure whenever the exit code is
    not 0. *)
Theorem translateToBackendFormat_runs_compiler_at_most_once
  (M : LLVM.Module) (S : Lowering) :
  let R := translateToBackendFormat Env M S in
  (spawned (world (snd R)) = spawned (world S) ∧ fst R ≠ Some true) ∨
  (∃ Args Code,
     spawned (world (snd R))
     = spawned (world S) ++ [(HIPSYCL_CLANG_PATH Env, Args, Code)] ∧
     head Args = Some (HIPSYCL_CLANG_PATH Env) ∧
     (fst R = Some true → Code = 0%Z) ∧
     (Code ≠ 0%Z → fst R = Some false)).
Proof.
  cbv zeta. unfold translateToBackendFormat.
  destruct (TempFile_create Env "hipsycl-sscp-cpu-%%%%%%.bc" _)
    as [InputFile W1] eqn:H1.
  destruct (TempFile_create Env "hipsycl-sscp-cpu-%%%%%%.s" W1)
    as [OutputFile W2] eqn:H2.
  pose proof (temp_files_spawned _ _ _ _ _ _ _ H1 H2) as Hsp.
  destruct InputFile as [InputFile|E1]; [destruct OutputFile as [OutputFile|E2]|].
  - right.
    destruct (translateScoped_run M InputFile OutputFile
                {| this := this S; out := out S; world := W2 |})
      as (_ & Hspawned & Hresult & _).
    simpl in Hspawned, Hresult.
    destruct (translateScoped Env M InputFile OutputFile _) as [Result S'].
    simpl in *. rewrite Hsp in Hspawned.
    eexists _, _. split; [exact Hspawned|].
    split; [apply Invocation_head|]. rewrite Hresult. split.
    + intros [= [HCode _]%bool_decide_eq_true]. done.
    + intros HCode. f_equal. apply bool_decide_eq_false. by intros [? _].
  - left. unfold failedTempFile.
    destruct (TmpName_of_failed Env E2); simpl; by rewrite Hsp.
  - left. unfold failedTempFile.
    destruct (TmpName_of_failed Env E1); simpl; by rewrite Hsp.
Qed.

(** X13: when one of the two temporary files cannot be created, the call
    never runs the compiler, writes neither to [out] nor to the debug
    stream, and does not succeed.  Building its error message it reads
    [TmpName] through the failed [Expected]: either that read aborts the
    process and nothing is logged, or it yields some string, and the call
    logs the message ending in that string and returns failure. *)
Theorem translateToBackendFormat_without_temp_files (M : LLVM.Module)
  (S : Lowering) (InputFile OutputFile : LLVM.Expected LLVM.TempFile)
  (W1 W2 : World) :
  TempFile_create Env "hipsycl-sscp-cpu-%%%%%%.bc"
    (write_file "hipsycl-sscp-cpu.ll" (printModule Env M) (world S))
  = (InputFile, W1) →
  TempFile_create Env "hipsycl-sscp-cpu-%%%%%%.s" W1 = (OutputFile, W2) →
  (∃ E, InputFile = LLVM.Failure E) ∨ (∃ E, OutputFile = LLVM.Failure E) →
  let R := translateToBackendFormat Env M S in
  spawned (world (snd R)) = spawned (world S) ∧
  debug_stream (world (snd R)) = debug_stream (world S) ∧
  out (snd R) = out S ∧
  fst R ≠ Some true ∧
  ∃ E, (InputFile = LLVM.Failure E ∨ OutputFile = LLVM.Failure E) ∧
       ((TmpName_of_failed Env E = None ∧
         fst R = None ∧ this (snd R) = this S) ∨
        (∃ Name, TmpName_of_failed Env E = Some Name ∧
                 fst R = Some false ∧
                 this (snd R)
                 = registerError
                     ("LLVMToCpu: Could not create temp file: " +:+ Name)
                     (this S))).
Proof.
  intros H1 H2 Hfail. cbv zeta.
  pose proof (temp_files_spawned _ _ _ _ _ _ _ H1 H2) as Hsp.
  assert (debug_stream W2 = debug_stream (world S)) as Hdebug.
  { unfold TempFile_create in H1, H2.
    destruct (createUniquePath Env _ (files W1)); simplify_eq;
      destruct (createUniquePath Env _ _); by simplify_eq. }
  assert (∀ E, (InputFile = LLVM.Failure E ∨ OutputFile = LLVM.Failure E) →
               let R := failedTempFile Env E S W2 in
               spawned (world (snd R)) = spawned (world S) ∧
               debug_stream (world (snd R)) = debug_stream (world S) ∧
               out (snd R) = out S ∧
               fst R ≠ Some true ∧
               ∃ E, (InputFile = LLVM.Failure E ∨ OutputFile = LLVM.Failure E) ∧
                    ((TmpName_of_failed Env E = None ∧
                      fst R = None ∧ this (snd R) = this S) ∨
                     (∃ Name, TmpName_of_failed Env E = Some Name ∧
                              fst R = Some false ∧
                              this (snd R)
                              = registerError
                                  ("LLVMToCpu: Could not create temp file: "
                                   +:+ Name) (this S)))) as Hpath.
  { intros E HE. cbv zeta. unfold failedTempFile.
    destruct (TmpName_of_failed Env E) as [Name|] eqn:HName; simpl;
      (split; [done|]); (split; [done|]); (split; [done|]);
      (split; [done|]); exists E; (split; [done|]).
    - right. exists Name. by rewrite HName.
    - left. by rewrite HName. }
  unfold translateToBackendFormat. rewrite H1, H2.
  destruct InputFile as [InputFile|E1]; [|apply Hpath; by left].
  destruct OutputFile as [OutputFile|E2]; [|apply Hpath; by right].
  destruct Hfail as [[E HE]|[E HE]]; discriminate HE.
Qed.

(** X14: when both temporary files were created, the compiler is run on a
    file system in which the input file holds the bitcode of the module;
    the call succeeds exactly when the compiler exits with 0 and leaves a
    file at the output path, and then [out] is the content of that file;
    otherwise it returns failure.  In every case the call leaves the file
    system as the compiler left it, less the two temporary files. *)
Theorem translateToBackendFormat_result (M : LLVM.Module) (S : Lowering)
  (InputFile OutputFile : LLVM.TempFile) (W1 W2 : World) :
  TempFile_create Env "hipsycl-sscp-cpu-%%%%%%.bc"
    (write_file "hipsycl-sscp-cpu.ll" (printModule Env M) (world S))
  = (LLVM.Value InputFile, W1) →
  TempFile_create Env "hipsycl-sscp-cpu-%%%%%%.s" W1
  = (LLVM.Value OutputFile, W2) →
  let Run := runProgram Env (HIPSYCL_CLANG_PATH Env)
               (Invocation (this S) (HIPSYCL_CLANG_PATH Env)
                  (LLVM.TmpName OutputFile) (LLVM.TmpName InputFile))
               (<[LLVM.TmpName InputFile := bitcodeOf Env M]> (files W2)) in
  let R := translateToBackendFormat Env M S in
  (fst R = Some true
   ↔ fst Run = 0%Z ∧ is_Some (snd Run !! LLVM.TmpName OutputFile)) ∧
  (fst R = Some true →
   snd Run !! LLVM.TmpName OutputFile = Some (out (snd R))) ∧
  files (world (snd R))
  = delete (LLVM.TmpName InputFile)
      (delete (LLVM.TmpName OutputFile) (snd Run)) ∧
  (fst R = Some false
   ↔ ¬ (fst Run = 0%Z ∧ is_Some (snd Run !! LLVM.TmpName OutputFile))).
Proof.
  intros H1 H2. cbv zeta.
  unfold translateToBackendFormat. rewrite H1, H2.
  destruct (translateScoped_run M InputFile OutputFile
              {| this := this S; out := out S; world := W2 |})
    as (Hfiles & _ & Hresult & Hout).
  simpl in Hfiles, Hresult, Hout.
  destruct (translateScoped Env M InputFile OutputFile _) as [Result S'].
  simpl in *. split; [|split; [|split]].
  - rewrite Hresult. split.
    + intros [= Htrue]. by apply bool_decide_eq_true in Htrue.
    + intros Hcond. f_equal. by apply bool_decide_eq_true.
  - intros [= Htrue]. by apply Hout.
  - by rewrite Hfiles.
  - rewrite Hresult. split.
    + intros [= Hfalse]. by apply bool_decide_eq_false in Hfalse.
    + intros Hcond. f_equal. by apply bool_decide_eq_false.
Qed.

End LoweringFacts.

(** ** Flavoring as a whole *)

(** X15: if, for a function that is among the kernel names, neither the
    linking of the builtin library nor the passes change the linkage of a
    function of that name, then a successful [toBackendFlavor] leaves the
    function with external linkage. *)
Theorem toBackendFlavor_kernel_external (Env : Environment)
  (T : LLVMToCpuTranslator) (M : LLVM.Module) (Name : string)
  (F : LLVM.Function) :
  (∀ M0 File, is_Some (LLVM.getFunction Name M0) →
     LLVM.Linkage
       <$> LLVM.getFunction Name (link_module (linkBitcodeFile Env M0 File))
     = LLVM.Linkage <$> LLVM.getFunction Name M0) →
  (∀ ASMap M0, is_Some (LLVM.getFunction Name M0) →
     LLVM.Linkage <$> LLVM.getFunction Name (runPasses Env ASMap M0)
     = LLVM.Linkage <$> LLVM.getFunction Name M0) →
  Name ∈ KernelNames T →
  LLVM.getFunction Name M = Some F →
  fst (fst (toBackendFlavor Env T M)) = true →
  LLVM.Linkage <$> LLVM.getFunction Name (snd (fst (toBackendFlavor Env T M)))
  = Some LLVM.ExternalLinkage.
Proof.
  intros Hlink Hpasses Hin HF.
  destruct (flavoring_marks_kernels_aux Env T M Name F Hin HF) as [Hext _].
  unfold toBackendFlavor.
  destruct (link_ok _) eqn:Hok; simpl; [intros _|discriminate].
  assert (LLVM.Linkage
            <$> LLVM.getFunction Name
                  (link_module (linkBitcodeFile Env (flavorBeforeLink Env T M)
                                  (BuiltinBitcodeFile Env)))
          = Some LLVM.ExternalLinkage) as Hlinked.
  { rewrite Hlink; rewrite Hext; [done|eauto]. }
  rewrite Hpasses; [done|].
  by destruct (LLVM.getFunction Name (link_module _)).
Qed.

Lemma toBackendFlavor_kernel_external_witness :
  LLVM.Linkage
    <$> LLVM.getFunction "k"
          (snd (fst (toBackendFlavor (example_host true true 0)
                       (example_translator (example_host true true 0) ["k"])
                       example_module)))
  = Some LLVM.ExternalLinkage.
Proof.
  apply (toBackendFlavor_kernel_external (example_host true true 0)
           (example_translator (example_host true true 0) ["k"])
           example_module "k" example_k).
  - intros M0 File _. reflexivity.
  - intros ASMap M0 _. reflexivity.
  - apply list_elem_of_here.
  - reflexivity.
  - reflexivity.
Defined.

(** **** Lowering on the example host, continued *)

Lemma translateToBackendFormat_without_temp_files_witness :
  let R := translateToBackendFormat (example_host_checking true false 0)
             example_module
             (example_lowering
                (example_translator (example_host_checking true false 0)
                   ["k"])) in
  spawned (world (snd R)) = [] ∧
  debug_stream (world (snd R)) = [] ∧
  out (snd R) = "old" ∧
  fst R ≠ Some true.
Proof.
  destruct (translateToBackendFormat_without_temp_files
              (example_host_checking true false 0) example_module
              (example_lowering
                 (example_translator (example_host_checking true false 0)
                    ["k"]))
              _ _ _ _ eq_refl eq_refl)
    as (Hspawned & Hdebug & Hout & Hresult & _).
  - right. by eexists.
  - done.
Defined.

(** The compiler exits with 0 and leaves the empty output file: the call
    succeeds. *)
Lemma translateToBackendFormat_result_witness :
  fst (translateToBackendFormat (example_host true true 0) example_module
         (example_lowering
            (example_translator (example_host true true 0) ["k"])))
  = Some true.
Proof.
  eapply (proj1 (translateToBackendFormat_result
                   (example_host true true 0) example_module
                   (example_lowering
                      (example_translator (example_host true true 0) ["k"]))
                   (LLVM.mkTempFile "/tmp/hipsycl-sscp-cpu-a1b2c3.bc")
                   (LLVM.mkTempFile "/tmp/hipsycl-sscp-cpu-d4e5f6.s")
                   _ _ eq_refl eq_refl)).
  split; [reflexivity|]. vm_compute. eauto.
Defined.
